(** * Key Vault secrets manager (src/app.py): a shallow embedding

    The program is sequential glue around an external command-line tool:
    it runs [az] as a subprocess, reads and writes one JSON transfer file,
    prints to the console and reads one confirmation line.  The embedding
    keeps that shape:

    - Python values that come out of [json.loads] are the inductive [json];
    - everything the program does to the outside is recorded in a [State]
      (commands issued, console lines, files, pending input lines);
    - what the outside answers is the [Platform]: the [az] tool as a function
      of the command history, the process environment, and the library
      functions the program calls but does not define ([json.loads],
      [json.dump], [fnmatch.fnmatch], [repr]);
    - [exit(n)] and uncaught exceptions are outcomes of the monad [M].

    Modelling assumptions: a [string] is a Python [str] of code points below
    256; JSON numbers are integers; the output of the tool is text; the tool
    is installed, and files can be opened for writing. *)

From Stdlib Require Import ZArith String Ascii List Bool Lia.
From Stdlib Require Import Decimal DecimalString DecimalZ DecimalPos DecimalN.
From Stdlib Require Import DecimalFacts.
From stdpp Require Import base option list gmap strings.
Import ListNotations.
Local Open Scope string_scope.
Local Open Scope Z_scope.
Local Open Scope list_scope.

(** ** Values *)

(** A value produced by [json.loads].  An object is a Python [dict]: its keys
    are kept in insertion order, and a well-formed one has no repeated key. *)
#[warnings="-register-all"]
Inductive json : Type :=
| JNull
| JBool (b : bool)
| JInt (n : Z)
| JStr (s : string)
| JArr (items : list json)
| JObj (fields : list (string * json)).

(** The exceptions the program can let escape. *)
Inductive exn : Type :=
| FileNotFoundError
| JSONDecodeError
| TypeError
| KeyError
| AttributeError
| ValueError
| EOFError.

(** What [subprocess.run] returns. Output streams are modelled as text. *)
Record CompletedProcess : Type := mkProc {
  returncode : Z;
  stdout : string;
  stderr : string
}.

(** One thing shown on the terminal: a [click.echo] line or the prompt of
    [input]. *)
Inductive shown : Type :=
| Echo (line : string)
| Prompt (text : string).

(** ** The outside world *)

Class Platform : Type := {
  (** the external tool: its answer to the last command of a history of
      commands (oldest first) *)
  az : list (list string) -> CompletedProcess;
  (** [os.getenv] *)
  getenv : string -> option string;
  (** [fnmatch.fnmatch name pattern] *)
  fnmatch : string -> string -> bool;
  (** [repr] of a value that is not a [str] *)
  py_repr : json -> string;
  (** [json.loads]; [None] stands for [JSONDecodeError] *)
  json_loads : string -> option json;
  (** [json.dumps(v, indent=n)] *)
  json_dumps : nat -> json -> string
}.

Record State : Type := mkState {
  calls : list (list string);      (* commands run so far, oldest first *)
  console : list shown;            (* terminal output so far, oldest first *)
  files : gmap string string;      (* the file system: path to contents *)
  stdin : list string              (* lines still to be read by input() *)
}.

(** ** The monad: state, [exit] and exceptions *)

Inductive outcome (A : Type) : Type :=
| Return (a : A)
| Exit (code : Z)
| Raise (e : exn).
Arguments Return {A} a.
Arguments Exit {A} code.
Arguments Raise {A} e.

Definition M (A : Type) : Type := State -> outcome A * State.

Definition ret {A} (a : A) : M A := fun s => (Return a, s).

Definition bind {A B} (m : M A) (k : A -> M B) : M B :=
  fun s =>
    match m s with
    | (Return a, s') => k a s'
    | (Exit c, s') => (Exit c, s')
    | (Raise e, s') => (Raise e, s')
    end.

Definition exit {A} (code : Z) : M A := fun s => (Exit code, s).
Definition raise {A} (e : exn) : M A := fun s => (Raise e, s).

Declare Scope py_scope.
Delimit Scope py_scope with py.
Notation "x <- m ;; k" := (bind m (fun x => k))
  (at level 100, m at next level, right associativity) : py_scope.
Notation "m ;; k" := (bind m (fun _ => k))
  (at level 100, right associativity) : py_scope.
Local Open Scope py_scope.

(** ** Python built-ins used by the program *)

Definition str_truthy (s : string) : bool :=
  match s with EmptyString => false | _ => true end.

(** truth value of [None] or a [str] *)
Definition opt_truthy (o : option string) : bool :=
  match o with None => false | Some s => str_truthy s end.

(** [a or b] on values that are [None] or a [str] *)
Definition py_or (a b : option string) : option string :=
  if opt_truthy a then a else b.

(** [str(v)], as used by an f-string *)
Definition py_str `{Platform} (v : json) : string :=
  match v with
  | JStr s => s
  | _ => py_repr v
  end.

Fixpoint dict_lookup {V} (k : string) (d : list (string * V)) : option V :=
  match d with
  | [] => None
  | (k', v) :: d' => if String.eqb k k' then Some v else dict_lookup k d'
  end.

(** [k in v] for a dict [v] *)
Definition dict_contains (k : string) (fields : list (string * json)) : bool :=
  match dict_lookup k fields with Some _ => true | None => false end.

(** [d.get(k, default)] *)
Definition dict_get (k : string) (default : json)
    (fields : list (string * json)) : json :=
  match dict_lookup k fields with Some v => v | None => default end.

(** [d[k] = v]: an existing key keeps its place, a new one goes last *)
Fixpoint dict_set {V} (k : string) (v : V) (d : list (string * V))
    : list (string * V) :=
  match d with
  | [] => [(k, v)]
  | (k', v') :: d' =>
      if String.eqb k k' then (k, v) :: d' else (k', v') :: dict_set k v d'
  end.

(** the keys of a dict are pairwise different *)
Fixpoint keys_distinct {V} (d : list (string * V)) : bool :=
  match d with
  | [] => true
  | (k, _) :: d' =>
      match dict_lookup k d' with
      | None => keys_distinct d'
      | Some _ => false
      end
  end.

(** a value [json.loads] can return: every dict in it has distinct keys *)
Fixpoint json_wf (v : json) : bool :=
  match v with
  | JArr items => forallb json_wf items
  | JObj fields =>
      keys_distinct fields && forallb (fun kv => json_wf (snd kv)) fields
  | _ => true
  end.

(** induction on values, with the property available for the elements of an
    array and for the members of an object *)
Section JsonInduction.
Variable P : json -> Prop.
Hypothesis Hnull : P JNull.
Hypothesis Hbool : forall b, P (JBool b).
Hypothesis Hint : forall n, P (JInt n).
Hypothesis Hstr : forall s, P (JStr s).
Hypothesis Harr : forall items, Forall P items -> P (JArr items).
Hypothesis Hobj :
  forall fields, Forall (fun kv => P (snd kv)) fields -> P (JObj fields).

Fixpoint json_nested_ind (v : json) : P v :=
  match v with
  | JNull => Hnull
  | JBool b => Hbool b
  | JInt n => Hint n
  | JStr s => Hstr s
  | JArr items =>
      Harr items
        ((fix all (l : list json) : Forall P l :=
            match l with
            | [] => List.Forall_nil P
            | x :: l' => @List.Forall_cons _ P x l' (json_nested_ind x) (all l')
            end) items)
  | JObj fields =>
      Hobj fields
        ((fix all (l : list (string * json))
            : Forall (fun kv => P (snd kv)) l :=
            match l with
            | [] => List.Forall_nil _
            | kv :: l' =>
                @List.Forall_cons _ (fun kv => P (snd kv)) kv l'
                  (json_nested_ind (snd kv)) (all l')
            end) fields)
  end.
End JsonInduction.

(** What the program relies on from the [json] module: [json.loads] returns
    well-formed values, and reads back what [json.dumps] has written. *)
Class JsonLaws (P : Platform) : Prop := {
  json_loads_wf :
    forall (text : string) (v : json),
      json_loads text = Some v -> json_wf v = true;
  json_loads_dumps :
    forall (indent : nat) (v : json),
      json_wf v = true -> json_loads (json_dumps indent v) = Some v
}.

(** [v[k]] for a string key [k] *)
Definition getitem (v : json) (k : string) : M json :=
  match v with
  | JObj fields =>
      match dict_lookup k fields with
      | Some x => ret x
      | None => raise KeyError
      end
  | _ => raise TypeError
  end.

(** [v.items()] *)
Definition py_items (v : json) : M (list (string * json)) :=
  match v with
  | JObj fields => ret fields
  | _ => raise AttributeError
  end.

Fixpoint chars (s : string) : list string :=
  match s with
  | EmptyString => []
  | String c s' => String c EmptyString :: chars s'
  end.

(** the elements a [for] loop visits *)
Definition py_iter (v : json) : M (list json) :=
  match v with
  | JArr items => ret items
  | JObj fields => ret (map (fun kv => JStr (fst kv)) fields)
  | JStr s => ret (map JStr (chars s))
  | _ => raise TypeError
  end.

(** [sep.join(parts)] *)
Fixpoint join (sep : string) (parts : list string) : string :=
  match parts with
  | [] => ""
  | [p] => p
  | p :: rest => p +:+ sep +:+ join sep rest
  end.

(** ** Effects *)

Definition click_echo (line : string) : M unit :=
  fun s => (Return tt,
            mkState (calls s) (console s ++ [Echo line]) (files s) (stdin s)).

(** [input(prompt)]: shows the prompt and reads one line without its
    newline; [EOFError] when there is none. *)
Definition input (prompt : string) : M string :=
  fun s =>
    let s' := mkState (calls s) (console s ++ [Prompt prompt]) (files s)
                      (stdin s) in
    match stdin s with
    | [] => (Raise EOFError, s')
    | line :: rest =>
        (Return line,
         mkState (calls s) (console s ++ [Prompt prompt]) (files s) rest)
    end.

(** The argument vector handed to the operating system: every argument has
    to be a [str], otherwise [subprocess.run] raises [TypeError]. *)
Fixpoint argv (args : list json) : outcome (list string) :=
  match args with
  | [] => Return []
  | JStr a :: rest =>
      match argv rest with
      | Return l => Return (a :: l)
      | other => other
      end
  | _ :: _ => Raise TypeError
  end.

(** [subprocess.run(args, ...)] without [check]: the command is added to the
    history and the tool answers. The tool is assumed to be installed and
    the operating system to accept the arguments. *)
Definition subprocess_run `{Platform} (args : list json) : M CompletedProcess :=
  fun s =>
    match argv args with
    | Return cmd =>
        let h := calls s ++ [cmd] in
        (Return (az h), mkState h (console s) (files s) (stdin s))
    | Exit c => (Exit c, s)
    | Raise e => (Raise e, s)
    end.

(** [with open(filename, 'r') as f: json.load(f)] *)
Definition json_load_file `{Platform} (filename : string) : M json :=
  fun s =>
    match files s !! filename with
    | None => (Raise FileNotFoundError, s)
    | Some text =>
        match json_loads text with
        | Some v => (Return v, s)
        | None => (Raise JSONDecodeError, s)
        end
    end.

(** [with open(filename, 'w') as f: json.dump(v, f, indent=4)]: the file is
    truncated and receives the whole document. The path is assumed writable. *)
Definition json_dump_file `{Platform} (v : json) (filename : string) : M unit :=
  fun s =>
    (Return tt,
     mkState (calls s) (console s)
             (<[filename := json_dumps 4 v]> (files s)) (stdin s)).

(** ** String methods

    A [string] stands for a Python [str] whose characters are code points
    below 256. *)

(** [c.isspace()] *)
Definition is_space (c : ascii) : bool :=
  let n := nat_of_ascii c in
  ((9 <=? n) && (n <=? 13) || (28 <=? n) && (n <=? 32)
   || (n =? 133) || (n =? 160))%nat.

(** [c.lower()] *)
Definition lower_char (c : ascii) : ascii :=
  let n := nat_of_ascii c in
  if ((65 <=? n) && (n <=? 90)
      || (192 <=? n) && (n <=? 222) && negb (n =? 215))%nat
  then ascii_of_nat (n + 32) else c.

Fixpoint lstrip (s : string) : string :=
  match s with
  | EmptyString => EmptyString
  | String c s' => if is_space c then lstrip s' else s
  end.

(** removes trailing whitespace: a space stays only if something that is not
    whitespace follows it *)
Fixpoint rstrip (s : string) : string :=
  match s with
  | EmptyString => EmptyString
  | String c s' =>
      match rstrip s' with
      | EmptyString => if is_space c then EmptyString else String c EmptyString
      | t => String c t
      end
  end.

(** [s.strip()] *)
Definition strip (s : string) : string := rstrip (lstrip s).

(** [s.lower()] *)
Fixpoint lower (s : string) : string :=
  match s with
  | EmptyString => EmptyString
  | String c s' => String (lower_char c) (lower s')
  end.

(** [s.split(sep)] for a one-character separator: never empty *)
Fixpoint split (sep : ascii) (s : string) : list string :=
  match s with
  | EmptyString => [EmptyString]
  | String c s' =>
      if Ascii.eqb c sep then EmptyString :: split sep s'
      else match split sep s' with
           | p :: ps => String c p :: ps
           | [] => [String c EmptyString]
           end
  end.

(** [dict(items)] where every item is a list of strings: an item that does
    not have exactly two elements raises [ValueError]; a repeated key keeps
    its first position and takes the last value. *)
Fixpoint dict_update (d : list (string * string)) (items : list (list string))
    : outcome (list (string * string)) :=
  match items with
  | [] => Return d
  | [k; v] :: rest => dict_update (dict_set k v d) rest
  | _ :: _ => Raise ValueError
  end.

Definition dict_of (items : list (list string))
    : outcome (list (string * string)) :=
  dict_update [] items.

Definition lift {A} (o : outcome A) : M A := fun s => (o, s).

(** ** The program *)

Section Program.
Context `{Platform}.

(** lines 8-19 *)
Definition azure_login_check : M unit :=
  result <- subprocess_run (map JStr ["az"; "account"; "show"]) ;;
  if returncode result =? 0 then ret tt
  else (* check=True raised CalledProcessError *)
    click_echo "You are not logged in to Azure. Initiating 'az login'..." ;;
    result <- subprocess_run (map JStr ["az"; "login"]) ;;
    if returncode result =? 0 then click_echo "Login successful!"
    else
      click_echo "Error: Azure login failed. Please try logging in manually." ;;
      exit 1.

(** lines 21-36 *)
Definition switch_subscription (subscription_id : option string) : M unit :=
  match subscription_id with
  | Some id =>
      if str_truthy id then
        click_echo ("Switching to subscription: " +:+ id) ;;
        result <- subprocess_run
                    (map JStr ["az"; "account"; "set"; "--subscription"; id]) ;;
        if returncode result =? 0 then
          click_echo "Subscription switched successfully."
        else
          click_echo ("Error switching to subscription " +:+ id +:+ ".") ;;
          click_echo (stderr result) ;;
          exit 1
      else ret tt
  | None => ret tt
  end.

(** the body of the loop of [push_secrets], lines 47-66 *)
Definition push_secret (vaultname : string) (secret : json) : M unit :=
  match secret with
  | JObj fields =>
      if dict_contains "name" fields && dict_contains "value" fields then
        let tags := dict_get "tags" (JObj []) fields in
        name <- getitem secret "name" ;;
        value <- getitem secret "value" ;;
        items <- py_items tags ;;
        let tag_args :=
          map (fun kv => JStr (fst kv +:+ "=" +:+ py_str (snd kv))) items in
        result <- subprocess_run
                    ([JStr "az"; JStr "keyvault"; JStr "secret"; JStr "set";
                      JStr "--vault-name"; JStr vaultname;
                      JStr "--name"; name; JStr "--value"; value;
                      JStr "--tags"] ++ tag_args) ;;
        if negb (returncode result =? 0) then
          click_echo ("Error pushing secret " +:+ py_str name) ;;
          exit 1
        else
          click_echo ("Secret " +:+ py_str name +:+ " pushed successfully")
      else
        click_echo "Error: Each secret must have 'name' and 'value' fields." ;;
        exit 1
  | _ =>
      click_echo "Error: Each secret must have 'name' and 'value' fields." ;;
      exit 1
  end.

(** [for secret in secrets: ...], line 46 *)
Fixpoint push_loop (vaultname : string) (secrets : list json) : M unit :=
  match secrets with
  | [] => ret tt
  | secret :: rest =>
      push_secret vaultname secret ;;
      push_loop vaultname rest
  end.

(** lines 39-66 *)
Definition push_secrets (vaultname filename : string) : M unit :=
  click_echo ("Pushing secrets to vault: " +:+ vaultname) ;;
  secrets <- json_load_file filename ;;
  items <- py_iter secrets ;;
  push_loop vaultname items.

(** the progress line of lines 100-103 and 106-109 *)
Definition echo_pulled (verbose : bool) (secret : json) : M unit :=
  if verbose then click_echo ("Secret pulled: " +:+ py_str secret)
  else
    name <- getitem secret "name" ;;
    click_echo ("Secret " +:+ py_str name +:+ " pulled successfully (value hidden)").

(** [fnmatch.fnmatch(name, pattern)] raises [TypeError] on a name that is
    not a [str] *)
Definition fnmatch_value (name : json) (pattern : string) : M bool :=
  match name with
  | JStr n => ret (fnmatch n pattern)
  | _ => raise TypeError
  end.

(** the body of the loop of [pull_secrets], lines 89-111; the result is the
    list [secrets] after the iteration *)
Definition pull_secret (secret_name_pattern : option string) (verbose : bool)
    (secrets : list json) (secret_id : json) : M (list json) :=
  result <- subprocess_run
              [JStr "az"; JStr "keyvault"; JStr "secret"; JStr "show";
               JStr "--id"; secret_id; JStr "--query";
               JStr "{name: name, value: value, tags: tags}";
               JStr "-o"; JStr "json"] ;;
  if returncode result =? 0 then
    match json_loads (stdout result) with
    | None => raise JSONDecodeError
    | Some secret =>
        if opt_truthy secret_name_pattern then
          name <- getitem secret "name" ;;
          matches <- fnmatch_value name (default "" secret_name_pattern) ;;
          if (matches : bool) then
            let secrets := secrets ++ [secret] in
            echo_pulled verbose secret ;;
            ret secrets
          else ret secrets
        else
          let secrets := secrets ++ [secret] in
          echo_pulled verbose secret ;;
          ret secrets
    end
  else
    click_echo ("Error pulling secret " +:+ py_str secret_id) ;;
    ret secrets.

(** [for secret_id in secrets_ids: ...], line 88 *)
Fixpoint pull_loop (secret_name_pattern : option string) (verbose : bool)
    (secrets_ids : list json) (secrets : list json) : M (list json) :=
  match secrets_ids with
  | [] => ret secrets
  | secret_id :: rest =>
      secrets' <- pull_secret secret_name_pattern verbose secrets secret_id ;;
      pull_loop secret_name_pattern verbose rest secrets'
  end.

(** the command of lines 72-76 *)
Definition list_command (vaultname : string) (tags : list (string * string))
    : list string :=
  match tags with
  | _ :: _ =>
      let tags_qry :=
        join " && "
          (map (fun kv => "tags." +:+ fst kv +:+ " == '" +:+ snd kv +:+ "'")
               tags) in
      ["az"; "keyvault"; "secret"; "list"; "--vault-name"; vaultname;
       "--query"; "[?" +:+ tags_qry +:+ "].id"; "-o"; "json"]
  | [] =>
      ["az"; "keyvault"; "secret"; "list"; "--vault-name"; vaultname;
       "--query"; "[].id"; "-o"; "json"]
  end.

(** lines 68-116 *)
Definition pull_secrets (vaultname : string) (tags : list (string * string))
    (filename : string) (secret_name_pattern : option string)
    (verbose : bool) : M unit :=
  click_echo ("Pulling secrets from vault: " +:+ vaultname) ;;
  result <- subprocess_run (map JStr (list_command vaultname tags)) ;;
  (if negb (returncode result =? 0) then
     click_echo "Error fetching secrets" ;;
     click_echo (stderr result) ;;
     exit 1
   else ret tt) ;;
  match json_loads (stdout result) with
  | None => raise JSONDecodeError
  | Some secrets_ids =>
      ids <- py_iter secrets_ids ;;
      secrets <- pull_loop secret_name_pattern verbose ids [] ;;
      json_dump_file (JArr secrets) filename ;;
      click_echo ("Secrets saved to " +:+ filename)
  end.

(** lines 118-121 *)
Definition confirm_action (action vaultname : string) : M bool :=
  line <- input ("Are you sure you want to " +:+ action
                 +:+ " secrets in the vault '" +:+ vaultname +:+ "'? [y/n]: ") ;;
  let response := lower (strip line) in
  ret (String.eqb response "y").

(** ** The command line *)

Inductive direction : Type := Push | Pull.

(** the namespace [argparse] returns: [--direction] and [--filename] are
    required, [--tags] takes one or more tokens, absent options are [None] *)
Record Args : Type := mkArgs {
  arg_direction : direction;
  arg_vaultname : option string;
  arg_filename : string;
  arg_tags : option (list string);
  arg_name : option string;
  arg_verbose : bool;
  arg_subscription : option string
}.

(** line 158 *)
Definition tag_dict_of (tags : option (list string))
    : outcome (list (string * string)) :=
  match tags with
  | Some ((_ :: _) as tokens) => dict_of (map (split "=") tokens)
  | _ => Return []
  end.

(** lines 135-153 of [main]: configuration, session and confirmation; the
    result is the vault name *)
Definition main_setup (args : Args) : M string :=
  let subscription_id :=
    py_or (arg_subscription args) (getenv "AZURE_SUBSCRIPTION_ID") in
  let vaultname := py_or (arg_vaultname args) (getenv "AZURE_KEYVAULT_NAME") in
  (if negb (opt_truthy subscription_id) then
     click_echo "Error: No subscription ID provided. Set the AZURE_SUBSCRIPTION_ID environment variable or use the --subscription flag." ;;
     exit 1
   else ret tt) ;;
  (if negb (opt_truthy vaultname) then
     click_echo "Error: No vault name provided. Set the AZURE_KEYVAULT_NAME environment variable or use the --vaultname flag." ;;
     exit 1
   else ret tt) ;;
  let vaultname := default "" vaultname in
  azure_login_check ;;
  switch_subscription subscription_id ;;
  let action :=
    match arg_direction args with Push => "push" | Pull => "pull" end in
  confirmed <- confirm_action action vaultname ;;
  (if negb confirmed then
     click_echo "Operation cancelled." ;;
     exit 0
   else ret tt) ;;
  ret vaultname.

(** lines 155-159 of [main] *)
Definition main_dispatch (args : Args) (vaultname : string) : M unit :=
  match arg_direction args with
  | Push => push_secrets vaultname (arg_filename args)
  | Pull =>
      tag_dict <- lift (tag_dict_of (arg_tags args)) ;;
      pull_secrets vaultname tag_dict (arg_filename args) (arg_name args)
                   (arg_verbose args)
  end.

(** lines 123-159, after [parse_args] *)
Definition main (args : Args) : M unit :=
  vaultname <- main_setup args ;;
  main_dispatch args vaultname.

End Program.

(** ** A reference platform

    An executable model of the library functions, used to run the program
    on concrete vaults.  It covers the JSON documents whose numbers are
    integers and whose characters are code points below 256, which is all
    the transfer file and the tool's answers need. *)

Module Ref.

(** *** [json.dumps(v, indent=n)] with the default [ensure_ascii] *)

(** the double quote character *)
Definition dquote : ascii := ascii_of_nat 34.

Definition hex_digit (n : nat) : ascii :=
  nth n ["0"; "1"; "2"; "3"; "4"; "5"; "6"; "7"; "8"; "9";
         "a"; "b"; "c"; "d"; "e"; "f"]%char "0"%char.

(** one character of a string literal: the quote, the backslash and the
    characters outside space..tilde are escaped *)
Definition escape_char (c : ascii) : string :=
  let n := nat_of_ascii c in
  if Ascii.eqb c dquote then String "\" (String dquote "")
  else if Ascii.eqb c "\" then "\\"
  else if (n =? 10)%nat then "\n"
  else if (n =? 13)%nat then "\r"
  else if (n =? 9)%nat then "\t"
  else if (n =? 8)%nat then "\b"
  else if (n =? 12)%nat then "\f"
  else if ((n <? 32) || (126 <? n))%nat then
    String "\" (String "u" (String "0" (String "0"
      (String (hex_digit (n / 16)) (String (hex_digit (n mod 16)) "")))))
  else String c "".

Fixpoint escape (s : string) : string :=
  match s with
  | EmptyString => EmptyString
  | String c s' => escape_char c +:+ escape s'
  end.

Definition quote (s : string) : string :=
  String dquote (escape s +:+ String dquote "").

Definition newline : string := String (ascii_of_nat 10) "".

Fixpoint spaces (n : nat) : string :=
  match n with
  | O => ""
  | S n' => String " " (spaces n')
  end.

(** a line break followed by the indentation of nesting depth [d] *)
Definition nl (indent d : nat) : string := newline +:+ spaces (indent * d).

Definition dumps_int (n : Z) : string :=
  DecimalString.NilZero.string_of_int (Z.to_int n).

Fixpoint dumps_at (indent d : nat) (v : json) {struct v} : string :=
  match v with
  | JNull => "null"
  | JBool true => "true"
  | JBool false => "false"
  | JInt n => dumps_int n
  | JStr s => quote s
  | JArr [] => "[]"
  | JArr (x :: xs) =>
      "[" +:+ nl indent (S d) +:+ dumps_at indent (S d) x
      +:+ (fix rest (l : list json) : string :=
             match l with
             | [] => ""
             | y :: l' =>
                 "," +:+ nl indent (S d) +:+ dumps_at indent (S d) y
                 +:+ rest l'
             end) xs
      +:+ nl indent d +:+ "]"
  | JObj [] => "{}"
  | JObj ((k, x) :: kxs) =>
      "{" +:+ nl indent (S d) +:+ quote k +:+ ": " +:+ dumps_at indent (S d) x
      +:+ (fix rest (l : list (string * json)) : string :=
             match l with
             | [] => ""
             | (k', y) :: l' =>
                 "," +:+ nl indent (S d) +:+ quote k' +:+ ": "
                 +:+ dumps_at indent (S d) y +:+ rest l'
             end) kxs
      +:+ nl indent d +:+ "}"
  end.

Definition dumps (indent : nat) (v : json) : string := dumps_at indent 0 v.

(** *** [json.loads] *)

Definition is_ws (c : ascii) : bool :=
  let n := nat_of_ascii c in
  ((n =? 32) || (n =? 9) || (n =? 10) || (n =? 13))%nat.

Fixpoint skip_ws (s : string) : string :=
  match s with
  | String c s' => if is_ws c then skip_ws s' else s
  | EmptyString => EmptyString
  end.

Definition is_digit (c : ascii) : bool :=
  let n := nat_of_ascii c in ((48 <=? n) && (n <=? 57))%nat.

Definition hex_value (c : ascii) : option nat :=
  let n := nat_of_ascii c in
  if ((48 <=? n) && (n <=? 57))%nat then Some (n - 48)%nat
  else if ((97 <=? n) && (n <=? 102))%nat then Some (n - 87)%nat
  else if ((65 <=? n) && (n <=? 70))%nat then Some (n - 55)%nat
  else None.

(** the character after a backslash, and what is left of the input *)
Definition unescape (s : string) : option (ascii * string) :=
  match s with
  | String c r =>
      if Ascii.eqb c dquote then Some (dquote, r)
      else if Ascii.eqb c "\" then Some ("\"%char, r)
      else if Ascii.eqb c "/" then Some ("/"%char, r)
      else if Ascii.eqb c "b" then Some (ascii_of_nat 8, r)
      else if Ascii.eqb c "f" then Some (ascii_of_nat 12, r)
      else if Ascii.eqb c "n" then Some (ascii_of_nat 10, r)
      else if Ascii.eqb c "r" then Some (ascii_of_nat 13, r)
      else if Ascii.eqb c "t" then Some (ascii_of_nat 9, r)
      else if Ascii.eqb c "u" then
        match r with
        | String h3 (String h2 (String h1 (String h0 r'))) =>
            match hex_value h3, hex_value h2, hex_value h1, hex_value h0 with
            | Some 0%nat, Some 0%nat, Some a, Some b =>
                Some (ascii_of_nat (16 * a + b), r')
            | _, _, _, _ => None
            end
        | _ => None
        end
      else None
  | EmptyString => None
  end.

(** the body of a string literal, after the opening quote, up to and
    including the closing quote *)
Fixpoint loads_string (fuel : nat) (s : string) : option (string * string) :=
  match fuel with
  | O => None
  | S fuel' =>
      match s with
      | EmptyString => None
      | String c r =>
          if Ascii.eqb c dquote then Some ("", r)
          else if Ascii.eqb c "\" then
            match unescape r with
            | Some (x, r') =>
                match loads_string fuel' r' with
                | Some (t, r'') => Some (String x t, r'')
                | None => None
                end
            | None => None
            end
          else if (nat_of_ascii c <? 32)%nat then None
          else
            match loads_string fuel' r with
            | Some (t, r') => Some (String c t, r')
            | None => None
            end
      end
  end.

Fixpoint take_digits (s : string) : string * string :=
  match s with
  | String c r =>
      if is_digit c then
        let (ds, r') := take_digits r in (String c ds, r')
      else ("", s)
  | EmptyString => ("", "")
  end.

(** a digit [0] followed by more digits *)
Definition leading_zero (ds : string) : bool :=
  match ds with
  | String c (String _ _) => Ascii.eqb c "0"
  | _ => false
  end.

(** the number goes on as a fraction or an exponent *)
Definition float_follows (r : string) : bool :=
  match r with
  | String c _ => Ascii.eqb c "." || Ascii.eqb c "e" || Ascii.eqb c "E"
  | EmptyString => false
  end.

(** the digits of an integer; a fraction or an exponent makes the number a
    float, which is outside the model *)
Definition loads_nat (s : string) : option (Z * string) :=
  let (ds, r) := take_digits s in
  if leading_zero ds || float_follows r then None
  else
    match DecimalString.NilZero.uint_of_string ds with
    | Some u => Some (Z.of_uint u, r)
    | None => None
    end.

Definition loads_int (s : string) : option (Z * string) :=
  match s with
  | String c r =>
      if Ascii.eqb c "-" then
        match loads_nat r with
        | Some (n, r') => Some (- n, r')
        | None => None
        end
      else loads_nat s
  | EmptyString => None
  end.

Fixpoint strip_prefix (p s : string) : option string :=
  match p, s with
  | EmptyString, _ => Some s
  | String a p', String b s' =>
      if Ascii.eqb a b then strip_prefix p' s' else None
  | _, EmptyString => None
  end.

(** the first character of [s] is [c]: what follows it *)
Definition expect (c : ascii) (s : string) : option string :=
  match s with
  | String c' r => if Ascii.eqb c c' then Some r else None
  | EmptyString => None
  end.

Fixpoint loads_value (fuel : nat) (s : string) {struct fuel}
    : option (json * string) :=
  match fuel with
  | O => None
  | S fuel' =>
      match s with
      | EmptyString => None
      | String c r =>
          if Ascii.eqb c dquote then
            match loads_string (String.length r) r with
            | Some (t, r') => Some (JStr t, r')
            | None => None
            end
          else if Ascii.eqb c "[" then
            match expect "]" (skip_ws r) with
            | Some r' => Some (JArr [], r')
            | None => loads_items fuel' (skip_ws r) []
            end
          else if Ascii.eqb c "{" then
            match expect "}" (skip_ws r) with
            | Some r' => Some (JObj [], r')
            | None => loads_fields fuel' (skip_ws r) []
            end
          else if Ascii.eqb c "n" then
            option_map (fun r' => (JNull, r')) (strip_prefix "ull" r)
          else if Ascii.eqb c "t" then
            option_map (fun r' => (JBool true, r')) (strip_prefix "rue" r)
          else if Ascii.eqb c "f" then
            option_map (fun r' => (JBool false, r')) (strip_prefix "alse" r)
          else
            option_map (fun nr => (JInt (fst nr), snd nr)) (loads_int s)
      end
  end

(** the elements of a non-empty array, after the opening bracket *)
with loads_items (fuel : nat) (s : string) (acc : list json) {struct fuel}
    : option (json * string) :=
  match fuel with
  | O => None
  | S fuel' =>
      match loads_value fuel' s with
      | Some (v, r) =>
          match expect "," (skip_ws r) with
          | Some r' => loads_items fuel' (skip_ws r') (acc ++ [v])
          | None =>
              match expect "]" (skip_ws r) with
              | Some r' => Some (JArr (acc ++ [v]), r')
              | None => None
              end
          end
      | None => None
      end
  end

(** the members of a non-empty object, after the opening brace *)
with loads_fields (fuel : nat) (s : string) (acc : list (string * json))
    {struct fuel} : option (json * string) :=
  match fuel with
  | O => None
  | S fuel' =>
      match expect dquote s with
      | Some r =>
          match loads_string (String.length r) r with
          | Some (k, r1) =>
              match expect ":" (skip_ws r1) with
              | Some r2 =>
                  match loads_value fuel' (skip_ws r2) with
                  | Some (v, r3) =>
                      match expect "," (skip_ws r3) with
                      | Some r4 =>
                          loads_fields fuel' (skip_ws r4) (dict_set k v acc)
                      | None =>
                          match expect "}" (skip_ws r3) with
                          | Some r4 => Some (JObj (dict_set k v acc), r4)
                          | None => None
                          end
                      end
                  | None => None
                  end
              | None => None
              end
          | None => None
          end
      | None => None
      end
  end.

(** the whole document: one value between optional whitespace *)
Definition loads (s : string) : option json :=
  match loads_value (S (String.length s)) (skip_ws s) with
  | Some (v, r) =>
      match skip_ws r with
      | EmptyString => Some v
      | _ => None
      end
  | None => None
  end.

(** *** Measures and shapes used to reason about the two functions *)

(** fuel that [loads_value] needs to read a printed value back *)
Fixpoint json_size (v : json) : nat :=
  match v with
  | JArr items => S (list_sum (map (fun x => S (json_size x)) items))
  | JObj fields => S (list_sum (map (fun kv => S (json_size (snd kv))) fields))
  | _ => 1
  end.

Definition items_size (l : list json) : nat :=
  list_sum (map (fun x => S (json_size x)) l).

Definition fields_size (l : list (string * json)) : nat :=
  list_sum (map (fun kv => S (json_size (snd kv))) l).

(** the elements of an array after the first, as [dumps_at] prints them *)
Fixpoint dumps_more (indent d : nat) (l : list json) : string :=
  match l with
  | [] => ""
  | y :: l' =>
      "," +:+ nl indent d +:+ dumps_at indent d y +:+ dumps_more indent d l'
  end.

(** the members of an object after the first, as [dumps_at] prints them *)
Fixpoint dumps_more_fields (indent d : nat) (l : list (string * json))
    : string :=
  match l with
  | [] => ""
  | (k, y) :: l' =>
      "," +:+ nl indent d +:+ quote k +:+ ": " +:+ dumps_at indent d y
      +:+ dumps_more_fields indent d l'
  end.

(** the characters a printed value can start with *)
Definition value_start (c : ascii) : bool :=
  Ascii.eqb c dquote || Ascii.eqb c "[" || Ascii.eqb c "{" || Ascii.eqb c "n"
  || Ascii.eqb c "t" || Ascii.eqb c "f" || Ascii.eqb c "-" || is_digit c.

(** text that cannot continue a number *)
Definition delimited (s : string) : bool :=
  match s with
  | EmptyString => true
  | String c _ => negb (is_digit c) && negb (float_follows s)
  end.

(** [loads_value] reads the printed form of [v] back, whatever follows *)
Definition parses (v : json) : Prop :=
  json_wf v = true ->
  forall n d fuel rest,
    (json_size v <= fuel)%nat -> delimited rest = true ->
    loads_value fuel (dumps_at n d v +:+ rest) = Some (v, rest).

(** *** [fnmatch.fnmatch] on a platform that keeps the case of names *)

Inductive glob : Type :=
| GStar
| GAny
| GLit (c : ascii)
| GClass (negated : bool) (ranges : list (ascii * ascii)).

(** the text of a character class up to its closing bracket; a bracket in
    first position belongs to the class *)
Fixpoint class_text (first : bool) (s : string) : option (string * string) :=
  match s with
  | EmptyString => None
  | String c r =>
      if Ascii.eqb c "]" && negb first then Some ("", r)
      else match class_text false r with
           | Some (t, r') => Some (String c t, r')
           | None => None
           end
  end.

(** [a-b] is a range, any other character stands for itself *)
Fixpoint class_ranges (fuel : nat) (s : string) : list (ascii * ascii) :=
  match fuel with
  | O => []
  | S fuel' =>
      match s with
      | String a (String "-" (String b r)) => (a, b) :: class_ranges fuel' r
      | String a r => (a, a) :: class_ranges fuel' r
      | EmptyString => []
      end
  end.

Fixpoint translate (fuel : nat) (pat : string) : list glob :=
  match fuel with
  | O => []
  | S fuel' =>
      match pat with
      | EmptyString => []
      | String c r =>
          if Ascii.eqb c "*" then GStar :: translate fuel' r
          else if Ascii.eqb c "?" then GAny :: translate fuel' r
          else if Ascii.eqb c "[" then
            let (negated, body) :=
              match r with
              | String "!" r' => (true, r')
              | _ => (false, r)
              end in
            match class_text true body with
            | Some (t, r') =>
                GClass negated (class_ranges (String.length t) t)
                :: translate fuel' r'
            | None => GLit c :: translate fuel' r
            end
          else GLit c :: translate fuel' r
      end
  end.

Definition in_ranges (c : ascii) (ranges : list (ascii * ascii)) : bool :=
  existsb (fun ab => (nat_of_ascii (fst ab) <=? nat_of_ascii c)%nat
                     && (nat_of_ascii c <=? nat_of_ascii (snd ab))%nat)
          ranges.

Fixpoint glob_match (p : list glob) (s : string) {struct p} : bool :=
  match p with
  | [] => match s with EmptyString => true | _ => false end
  | GStar :: p' =>
      (fix try (t : string) : bool :=
         glob_match p' t
         || match t with
            | EmptyString => false
            | String _ t' => try t'
            end) s
  | GAny :: p' =>
      match s with String _ s' => glob_match p' s' | EmptyString => false end
  | GLit c :: p' =>
      match s with
      | String d s' => Ascii.eqb c d && glob_match p' s'
      | EmptyString => false
      end
  | GClass negated ranges :: p' =>
      match s with
      | String d s' =>
          xorb negated (in_ranges d ranges) && glob_match p' s'
      | EmptyString => false
      end
  end.

Definition fnmatch (name pat : string) : bool :=
  glob_match (translate (String.length pat) pat) name.

(** *** [repr] of values that are not strings at top level *)

Definition repr_char (quoted_by : ascii) (c : ascii) : string :=
  let n := nat_of_ascii c in
  if Ascii.eqb c quoted_by then String "\" (String c "")
  else if Ascii.eqb c "\" then "\\"
  else if (n =? 10)%nat then "\n"
  else if (n =? 13)%nat then "\r"
  else if (n =? 9)%nat then "\t"
  else if ((n <? 32) || (126 <? n) && (n <? 161) || (n =? 173))%nat then
    String "\" (String "x"
      (String (hex_digit (n / 16)) (String (hex_digit (n mod 16)) "")))
  else String c "".

Fixpoint repr_chars (quoted_by : ascii) (s : string) : string :=
  match s with
  | EmptyString => EmptyString
  | String c s' => repr_char quoted_by c +:+ repr_chars quoted_by s'
  end.

Definition contains (c : ascii) (s : string) : bool :=
  existsb (Ascii.eqb c) (list_ascii_of_string s).

(** a string is shown in single quotes, or in double quotes when it has a
    single quote and no double quote *)
Definition repr_str (s : string) : string :=
  let q := if contains "'" s && negb (contains dquote s)
           then dquote else "'"%char in
  String q (repr_chars q s +:+ String q "").

Fixpoint repr (v : json) {struct v} : string :=
  match v with
  | JNull => "None"
  | JBool true => "True"
  | JBool false => "False"
  | JInt n => dumps_int n
  | JStr s => repr_str s
  | JArr items =>
      "[" +:+ join ", " (map repr items) +:+ "]"
  | JObj fields =>
      "{" +:+ join ", "
                (map (fun kv => repr_str (fst kv) +:+ ": " +:+ repr (snd kv))
                     fields) +:+ "}"
  end.

End Ref.

(** The platform made of a tool, an environment and the reference library. *)
Definition platform (tool : list (list string) -> CompletedProcess)
    (env : string -> option string) : Platform :=
  {| az := tool;
     getenv := env;
     fnmatch := Ref.fnmatch;
     py_repr := Ref.repr;
     json_loads := Ref.loads;
     json_dumps := Ref.dumps |}.


(** The claims' reading of the spec, to be compared with the code *)

(** [s] is made of whitespace only *)
Definition is_blank (s : string) : bool :=
  forallb is_space (list_ascii_of_string s).

(** number of occurrences of [c] in [s] *)
Fixpoint count_char (c : ascii) (s : string) : nat :=
  match s with
  | EmptyString => O
  | String d s' => (if Ascii.eqb d c then 1 else 0) + count_char c s'
  end.

(** the text before the first [c] of [s] *)
Fixpoint before (c : ascii) (s : string) : string :=
  match s with
  | EmptyString => EmptyString
  | String d s' => if Ascii.eqb d c then EmptyString else String d (before c s')
  end.

(** the text after the first [c] of [s] *)
Fixpoint after (c : ascii) (s : string) : string :=
  match s with
  | EmptyString => EmptyString
  | String d s' => if Ascii.eqb d c then s' else after c s'
  end.

(** the mapping a list of [key=value] tokens denotes: later tokens override
    earlier ones with the same key *)
Definition tag_mapping (tokens : list string) : list (string * string) :=
  fold_left (fun d t => dict_set (before "=" t) (after "=" t) d) tokens [].

(** the command of lines 57-58 for a record whose name and value are
    strings and whose tags are the mapping [tags] *)
Definition set_command `{Platform} (vaultname name value : string)
    (tags : list (string * json)) : list string :=
  ["az"; "keyvault"; "secret"; "set"; "--vault-name"; vaultname;
   "--name"; name; "--value"; value; "--tags"]
  ++ map (fun kv => fst kv +:+ "=" +:+ py_str (snd kv)) tags.

(** the test of line 47: a dict that has the keys [name] and [value] *)
Definition has_required_fields (secret : json) : bool :=
  match secret with
  | JObj fields => dict_contains "name" fields && dict_contains "value" fields
  | _ => false
  end.

(** the spec's test, section 4.3 step 2: [name] and [value] are present
    and non-empty *)
Definition present_and_non_empty (field : option json) : bool :=
  match field with
  | None => false
  | Some (JStr EmptyString) => false
  | Some _ => true
  end.

Definition spec_valid_record (secret : json) : bool :=
  match secret with
  | JObj fields =>
      present_and_non_empty (dict_lookup "name" fields)
      && present_and_non_empty (dict_lookup "value" fields)
  | _ => false
  end.

(** the state in which [push_secrets] enters its loop *)
Definition push_started (vaultname : string) (s : State) : State :=
  mkState (calls s)
          (console s ++ [Echo ("Pushing secrets to vault: " +:+ vaultname)])
          (files s) (stdin s).

(** the fetch command of line 90 for the identifier [secret_id] *)
Definition show_command (secret_id : string) : list string :=
  ["az"; "keyvault"; "secret"; "show"; "--id"; secret_id; "--query";
   "{name: name, value: value, tags: tags}"; "-o"; "json"].

(** the answers of the tool to the fetches of [ids], run one after the
    other after the commands [history] *)
Fixpoint show_results `{Platform} (history : list (list string))
    (ids : list string) : list CompletedProcess :=
  match ids with
  | [] => []
  | i :: rest =>
      let history' := history ++ [show_command i] in
      az history' :: show_results history' rest
  end.

(** the name of a record: the string under its key [name] *)
Definition record_name (v : json) : option string :=
  match v with
  | JObj fields =>
      match dict_lookup "name" fields with
      | Some (JStr n) => Some n
      | _ => None
      end
  | _ => None
  end.

(** What the tool promises for a fetch (spec, section 6): it fails, or it
    prints a JSON object that has a name. *)
Definition fetch_in_contract `{Platform} (r : CompletedProcess) : Prop :=
  returncode r = 0 ->
  exists v n, json_loads (stdout r) = Some v /\ record_name v = Some n.

(** the record of a successful fetch *)
Definition fetched_record `{Platform} (r : CompletedProcess) : option json :=
  if returncode r =? 0 then json_loads (stdout r) else None.

(** the selection the code makes, lines 97-105: a pattern that is [None] or
    empty selects every record *)
Definition selected `{Platform} (pattern : option string) (v : json) : bool :=
  if opt_truthy pattern then
    match record_name v with
    | Some n => fnmatch n (default "" pattern)
    | None => false
    end
  else true.


Fixpoint successes `{Platform} (results : list CompletedProcess) : list json :=
  match results with
  | [] => []
  | r :: rest =>
      match fetched_record r with
      | Some v => v :: successes rest
      | None => successes rest
      end
  end.

(** the records [pull_secrets] keeps: the successful fetches that are
    selected, in fetch order *)
Definition pulled `{Platform} (pattern : option string)
    (results : list CompletedProcess) : list json :=
  List.filter (selected pattern) (successes results).

(** what [pull_secrets] prints for one fetch *)
Definition progress `{Platform} (pattern : option string) (verbose : bool)
    (secret_id : string) (r : CompletedProcess) : list shown :=
  match fetched_record r with
  | Some v =>
      if selected pattern v then
        if verbose then [Echo ("Secret pulled: " +:+ py_str v)]
        else [Echo ("Secret " +:+ default "" (record_name v)
                    +:+ " pulled successfully (value hidden)")]
      else []
  | None => [Echo ("Error pulling secret " +:+ secret_id)]
  end.

Fixpoint progress_lines `{Platform} (pattern : option string) (verbose : bool)
    (ids : list string) (results : list CompletedProcess) : list shown :=
  match ids, results with
  | i :: ids', r :: results' =>
      progress pattern verbose i r ++ progress_lines pattern verbose ids' results'
  | _, _ => []
  end.

(** a record [push_secrets] can set: an object whose name and value are
    strings and whose tags, when present, are an object *)
Definition as_secret (v : json)
    : option (string * string * list (string * json)) :=
  match v with
  | JObj fields =>
      match dict_lookup "name" fields, dict_lookup "value" fields,
            dict_get "tags" (JObj []) fields with
      | Some (JStr name), Some (JStr value), JObj tags =>
          Some (name, value, tags)
      | _, _, _ => None
      end
  | _ => None
  end.


(** *** Example worlds *)

(** JSON text written with apostrophes in place of double quotes *)
Fixpoint json_text (s : string) : string :=
  match s with
  | EmptyString => EmptyString
  | String c s' =>
      String (if Ascii.eqb c "'" then Ref.dquote else c) (json_text s')
  end.

(** A small vault behind the tool: [list] answers [listing], [show --id i]
    answers what [shows] holds for [i] and fails for an unknown identifier,
    [set --name n] fails for the names in [rejected]; everything else
    succeeds silently. *)
Definition vault_tool (listing : CompletedProcess)
    (shows : list (string * CompletedProcess)) (rejected : list string)
    (history : list (list string)) : CompletedProcess :=
  let cmd := List.last history [] in
  let verb := nth 3 cmd "" in
  if String.eqb verb "list" then listing
  else if String.eqb verb "show" then
    match dict_lookup (nth 5 cmd "") shows with
    | Some answer => answer
    | None => mkProc 3 "" "ERROR: secret not found"
    end
  else if String.eqb verb "set" then
    if existsb (String.eqb (nth 7 cmd "")) rejected
    then mkProc 1 "" "ERROR: rejected"
    else mkProc 0 "{}" ""
  else mkProc 0 "{}" "".

Definition no_env : string -> option string := fun _ => None.

(** a vault with three identifiers, the last of which cannot be fetched *)
Definition demo_vault : list (list string) -> CompletedProcess :=
  vault_tool
    (mkProc 0 (json_text "['id/db-pass', 'id/api-key', 'id/gone']") "")
    [("id/db-pass",
      mkProc 0 (json_text "{'name': 'db-pass', 'value': 's3cret', 'tags': {'env': 'prod'}}") "");
     ("id/api-key",
      mkProc 0 (json_text "{'name': 'api-key', 'value': 'k1', 'tags': {'env': 'dev'}}") "")]
    [].

(** a vault with a tagged secret and a secret without tags, for which the
    tool prints [null] *)
Definition untagged_vault : list (list string) -> CompletedProcess :=
  vault_tool
    (mkProc 0 (json_text "['id/db-pass', 'id/plain']") "")
    [("id/db-pass",
      mkProc 0 (json_text "{'name': 'db-pass', 'value': 's3cret', 'tags': {'env': 'prod'}}") "");
     ("id/plain",
      mkProc 0 (json_text "{'name': 'plain', 'value': 'p', 'tags': null}") "")]
    [].

Definition db_pass : json :=
  JObj [("name", JStr "db-pass"); ("value", JStr "s3cret");
        ("tags", JObj [("env", JStr "prod")])].


(** *** What a run leaves alone *)

(** [m] goes from a state to one related to it by [I], whatever its
    outcome *)
Definition preserves {A} (I : State -> State -> Prop) (m : M A) : Prop :=
  forall s, I s (snd (m s)).

(** the files are the same *)
Definition same_files (s s' : State) : Prop := files s' = files s.

(** no line of input has been read *)
Definition same_stdin (s s' : State) : Prop := stdin s' = stdin s.

(** the commands run in between all satisfy [allowed] *)
Definition ran_only (allowed : list string -> Prop) (s s' : State) : Prop :=
  exists new, calls s' = calls s ++ new /\ Forall allowed new.

(** the commands of the session: account query, login, subscription
    switch *)
Definition is_session_command (cmd : list string) : Prop :=
  cmd = ["az"; "account"; "show"]
  \/ cmd = ["az"; "login"]
  \/ exists id, cmd = ["az"; "account"; "set"; "--subscription"; id].

(** the commands of a pull: the listing and the fetches *)
Definition is_pull_command (vaultname : string) (tags : list (string * string))
    (cmd : list string) : Prop :=
  cmd = list_command vaultname tags \/ exists i, cmd = show_command i.

(** a command on the secrets of a vault *)
Definition is_vault_command (cmd : list string) : Prop :=
  nth 1 cmd "" = "keyvault".

(** the commands of a push: a set on the given vault *)
Definition is_push_command `{Platform} (vaultname : string)
    (cmd : list string) : Prop :=
  exists name value tags, cmd = set_command vaultname name value tags.

(** what a push leaves alone: the files, the pending input, and every
    command other than a set on the vault *)
Definition push_frame `{Platform} (vaultname : string) (s s' : State) : Prop :=
  same_files s s' /\ same_stdin s s'
  /\ ran_only (is_push_command vaultname) s s'.

(** what the fetches of a pull leave alone: the files, the pending input,
    and every command other than the listing and the fetches *)
Definition pull_frame (vaultname : string) (tags : list (string * string))
    (s s' : State) : Prop :=
  same_files s s' /\ same_stdin s s'
  /\ ran_only (is_pull_command vaultname tags) s s'.


(** what the session steps leave alone: the files, the pending input, and
    every command other than those of the session *)
Definition session_frame (s s' : State) : Prop :=
  same_files s s' /\ same_stdin s s' /\ ran_only is_session_command s s'.

(** the prompt of [confirm_action] *)
Definition confirm_prompt (action vaultname : string) : shown :=
  Prompt ("Are you sure you want to " +:+ action
          +:+ " secrets in the vault '" +:+ vaultname +:+ "'? [y/n]: ").

(** the verb [main] puts in the prompt *)
Definition action_of (d : direction) : string :=
  match d with Push => "push" | Pull => "pull" end.



(** the value of the last token whose key is [k] *)
Fixpoint last_value (k : string) (tokens : list string) : option string :=
  match tokens with
  | [] => None
  | t :: rest =>
      match last_value k rest with
      | Some v => Some v
      | None => if String.eqb k (before "=" t) then Some (after "=" t) else None
      end
  end.

(** the answer [confirm_action] takes for a yes *)
Definition accepted (line : string) : bool :=
  String.eqb (lower (strip line)) "y".

(** * Properties *)

(** ** The reference JSON library reads back what it writes *)

Module RefFacts.
Import Ref.

Lemma sapp_cons (c : ascii) (a b : string) :
  String c a +:+ b = String c (a +:+ b).
Proof. reflexivity. Qed.

Lemma sapp_assoc (a b c : string) : (a +:+ b) +:+ c = a +:+ (b +:+ c).
Proof.
  induction a as [|x a IH]; [reflexivity|].
  change (String x ((a +:+ b) +:+ c) = String x (a +:+ (b +:+ c))).
  rewrite IH. reflexivity.
Qed.

Lemma sapp_length (a b : string) :
  String.length (a +:+ b) = (String.length a + String.length b)%nat.
Proof.
  induction a as [|x a IH]; [reflexivity|].
  change (S (String.length (a +:+ b)) = S (String.length a + String.length b)).
  rewrite IH. reflexivity.
Qed.

(** *** String literals *)

Lemma loads_string_char (c : ascii) (fuel : nat) (tail : string) :
  loads_string (S fuel) (escape_char c +:+ tail)
  = match loads_string fuel tail with
    | Some (t, r) => Some (String c t, r)
    | None => None
    end.
Proof. destruct c as [[] [] [] [] [] [] [] []]; reflexivity. Qed.

Lemma loads_string_escape (s : string) (fuel : nat) (rest : string) :
  (String.length s < fuel)%nat ->
  loads_string fuel (escape s +:+ String dquote rest) = Some (s, rest).
Proof.
  revert fuel. induction s as [|c s IH]; intros fuel Hfuel;
    destruct fuel as [|fuel]; try (simpl in Hfuel; lia).
  - reflexivity.
  - change (escape (String c s)) with (escape_char c +:+ escape s).
    rewrite sapp_assoc, loads_string_char, IH; [reflexivity|].
    simpl in Hfuel. lia.
Qed.

Lemma escape_char_length (c : ascii) : (1 <= String.length (escape_char c))%nat.
Proof. destruct c as [[] [] [] [] [] [] [] []]; vm_compute; lia. Qed.

Lemma escape_length (s : string) :
  (String.length s <= String.length (escape s))%nat.
Proof.
  induction s as [|c s IH]; [reflexivity|].
  change (escape (String c s)) with (escape_char c +:+ escape s).
  rewrite sapp_length. pose proof (escape_char_length c). simpl. lia.
Qed.

(** a string literal, read back by [loads_value] or as a key *)
Lemma loads_quote (s rest : string) :
  match quote s +:+ rest with
  | String c r =>
      c = dquote /\ loads_string (String.length r) r = Some (s, rest)
  | EmptyString => False
  end.
Proof.
  unfold quote.
  change (String dquote (escape s +:+ String dquote "") +:+ rest)
    with (String dquote ((escape s +:+ String dquote "") +:+ rest)).
  split; [reflexivity|].
  rewrite sapp_assoc.
  change (String dquote "" +:+ rest) with (String dquote rest).
  apply loads_string_escape.
  rewrite sapp_length. pose proof (escape_length s). simpl. lia.
Qed.

(** *** Integers *)

Lemma take_digits_uint (u : uint) (rest : string) :
  delimited rest = true ->
  take_digits (NilEmpty.string_of_uint u +:+ rest)
  = (NilEmpty.string_of_uint u, rest).
Proof.
  intros Hd. induction u as [|u IH|u IH|u IH|u IH|u IH|u IH|u IH|u IH|u IH|u IH];
    try (simpl; simpl in IH; rewrite IH; reflexivity).
  simpl. destruct rest as [|c rest]; [reflexivity|].
  simpl in Hd. apply andb_prop in Hd as [Hd _].
  simpl. destruct (is_digit c); [discriminate Hd | reflexivity].
Qed.

Lemma unorm_shape (u : uint) :
  unorm u = u -> u <> Nil /\ (u = D0 Nil \/ forall u', u <> D0 u').
Proof.
  intros E. split.
  - rewrite <- E. apply unorm_nonnil.
  - destruct u as [|u|u|u|u|u|u|u|u|u|u]; try (right; intros u'; discriminate).
    left. rewrite unorm_D0 in E.
    pose proof (nb_digits_unorm u) as L.
    destruct u as [|u|u|u|u|u|u|u|u|u|u]; try reflexivity;
      exfalso; (assert (nb_digits (unorm _) <= _)%nat as L' by (apply L; discriminate));
      rewrite E in L'; simpl in L'; lia.
Qed.

Lemma to_uint_norm (p : positive) : unorm (Pos.to_uint p) = Pos.to_uint p.
Proof.
  pose proof (DecimalPos.Unsigned.to_of (Pos.to_uint p)) as E.
  rewrite DecimalPos.Unsigned.of_to in E. symmetry. exact E.
Qed.

Lemma loads_nat_digits (u : uint) (rest : string) :
  u <> Nil ->
  (u = D0 Nil \/ forall u', u <> D0 u') ->
  delimited rest = true ->
  loads_nat (NilEmpty.string_of_uint u +:+ rest) = Some (Z.of_uint u, rest).
Proof.
  intros Hnil Hz Hd. unfold loads_nat. rewrite take_digits_uint by exact Hd.
  assert (float_follows rest = false) as Hf.
  { destruct rest as [|c rest]; [reflexivity|]. simpl in Hd.
    apply andb_prop in Hd as [_ Hd]. apply negb_true_iff in Hd. exact Hd. }
  assert (NilZero.uint_of_string (NilEmpty.string_of_uint u) = Some u) as Hu.
  { rewrite <- (NilEmpty.usu u). destruct u; try reflexivity. contradiction. }
  rewrite Hu, Hf, orb_false_r.
  destruct Hz as [-> | Hz]; [reflexivity|].
  destruct u as [|u|u|u|u|u|u|u|u|u|u]; try contradiction;
    try (destruct u; reflexivity).
  exfalso. apply (Hz u). reflexivity.
Qed.

Lemma loads_int_dumps (z : Z) (rest : string) :
  delimited rest = true ->
  loads_int (dumps_int z +:+ rest) = Some (z, rest).
Proof.
  intros Hd. unfold dumps_int.
  assert (forall p, loads_nat (NilEmpty.string_of_uint (Pos.to_uint p) +:+ rest)
                    = Some (Z.pos p, rest)) as Hpos.
  { intros p. destruct (unorm_shape _ (to_uint_norm p)) as [Hnil Hz].
    rewrite loads_nat_digits; auto.
    unfold Z.of_uint. rewrite DecimalPos.Unsigned.of_to. reflexivity. }
  destruct z as [|p|p]; simpl Z.to_int.
  - apply (loads_nat_digits (D0 Nil) rest); auto; discriminate.
  - unfold NilZero.string_of_int, NilZero.string_of_uint.
    pose proof (Hpos p) as L.
    pose proof (DecimalPos.Unsigned.to_uint_nonnil p) as Hn.
    destruct (Pos.to_uint p) as [|u|u|u|u|u|u|u|u|u|u]; try contradiction;
      exact L.
  - unfold NilZero.string_of_int, NilZero.string_of_uint.
    pose proof (Hpos p) as L.
    pose proof (DecimalPos.Unsigned.to_uint_nonnil p) as Hn.
    assert (forall x, loads_int (String "-" x)
                      = match loads_nat x with
                        | Some (n, r') => Some (- n, r')%Z
                        | None => None
                        end) as Hminus by reflexivity.
    destruct (Pos.to_uint p) as [|u|u|u|u|u|u|u|u|u|u]; try contradiction;
      rewrite sapp_cons, Hminus, L; reflexivity.
Qed.

(** *** Values *)

Lemma dumps_arr (n d : nat) (x : json) (xs : list json) :
  dumps_at n d (JArr (x :: xs))
  = "[" +:+ nl n (S d) +:+ dumps_at n (S d) x +:+ dumps_more n (S d) xs
    +:+ nl n d +:+ "]".
Proof.
  assert (forall l,
            (fix rest (l : list json) : string :=
               match l with
               | [] => ""
               | y :: l' =>
                   "," +:+ nl n (S d) +:+ dumps_at n (S d) y +:+ rest l'
               end) l = dumps_more n (S d) l) as E.
  { induction l as [|y l IH]; [reflexivity|].
    cbn [dumps_more]. rewrite <- IH. reflexivity. }
  rewrite <- E. reflexivity.
Qed.

Lemma dumps_obj (n d : nat) (k : string) (x : json)
    (kxs : list (string * json)) :
  dumps_at n d (JObj ((k, x) :: kxs))
  = "{" +:+ nl n (S d) +:+ quote k +:+ ": " +:+ dumps_at n (S d) x
    +:+ dumps_more_fields n (S d) kxs +:+ nl n d +:+ "}".
Proof.
  assert (forall l,
            (fix rest (l : list (string * json)) : string :=
               match l with
               | [] => ""
               | (k', y) :: l' =>
                   "," +:+ nl n (S d) +:+ quote k' +:+ ": "
                   +:+ dumps_at n (S d) y +:+ rest l'
               end) l = dumps_more_fields n (S d) l) as E.
  { induction l as [|[k' y] l IH]; [reflexivity|].
    cbn [dumps_more_fields]. rewrite <- IH. reflexivity. }
  rewrite <- E. reflexivity.
Qed.

(** the first character of a printed value *)
Lemma int_start (z : Z) :
  exists c t, dumps_int z = String c t /\ value_start c = true.
Proof.
  unfold dumps_int. destruct z as [|p|p]; simpl Z.to_int.
  - eexists _, _. split; reflexivity.
  - unfold NilZero.string_of_int, NilZero.string_of_uint.
    pose proof (DecimalPos.Unsigned.to_uint_nonnil p) as Hn.
    destruct (Pos.to_uint p); try contradiction;
      (eexists _, _; split; [reflexivity | reflexivity]).
  - eexists _, _. split; reflexivity.
Qed.

Lemma dumps_start (n d : nat) (v : json) :
  exists c t, dumps_at n d v = String c t /\ value_start c = true.
Proof.
  destruct v as [|[]|z|s|[|x xs]|[|[k x] kxs]];
    try apply int_start; eexists _, _; split; reflexivity.
Qed.

Lemma value_start_facts (c : ascii) :
  value_start c = true ->
  is_ws c = false
  /\ Ascii.eqb "]" c = false /\ Ascii.eqb "}" c = false
  /\ Ascii.eqb "," c = false /\ Ascii.eqb ":" c = false.
Proof.
  destruct c as [[] [] [] [] [] [] [] []]; vm_compute; intros E;
    first [discriminate E | repeat split].
Qed.

Lemma skip_ws_start (c : ascii) (t : string) :
  is_ws c = false -> skip_ws (String c t) = String c t.
Proof. intros E. simpl. rewrite E. reflexivity. Qed.

Lemma skip_ws_spaces (k : nat) (t : string) :
  skip_ws (spaces k +:+ t) = skip_ws t.
Proof. induction k as [|k IH]; [reflexivity|]. exact IH. Qed.

Lemma skip_ws_nl (n d : nat) (t : string) : skip_ws (nl n d +:+ t) = skip_ws t.
Proof.
  unfold nl, newline. rewrite sapp_assoc.
  change (skip_ws (spaces (n * d) +:+ t) = skip_ws t).
  apply skip_ws_spaces.
Qed.

Lemma loads_value_int (z : Z) (fuel : nat) (rest : string) :
  delimited rest = true ->
  loads_value (S fuel) (dumps_int z +:+ rest) = Some (JInt z, rest).
Proof.
  intros Hd. pose proof (loads_int_dumps z rest Hd) as L.
  destruct (int_start z) as (c & t & E & Hc). rewrite E in *.
  rewrite sapp_cons in *.
  assert (loads_value (S fuel) (String c (t +:+ rest))
          = option_map (fun nr => (JInt (fst nr), snd nr))
                       (loads_int (String c (t +:+ rest)))) as ->.
  { clear -Hc E. destruct z as [|p|p]; unfold dumps_int in E; simpl Z.to_int in E.
    - injection E as <- <-. reflexivity.
    - unfold NilZero.string_of_int, NilZero.string_of_uint in E.
      destruct (Pos.to_uint p); injection E as <- <-; reflexivity.
    - injection E as <- <-. reflexivity. }
  rewrite L. reflexivity.
Qed.
Lemma skip_ws_dumps (n d : nat) (v : json) (t : string) :
  skip_ws (dumps_at n d v +:+ t) = dumps_at n d v +:+ t.
Proof.
  destruct (dumps_start n d v) as (c & u & -> & Hc).
  apply value_start_facts in Hc as (Hws & _). rewrite sapp_cons.
  apply skip_ws_start, Hws.
Qed.

Lemma expect_dumps (n d : nat) (v : json) (t : string) :
  expect "]" (dumps_at n d v +:+ t) = None
  /\ expect "}" (dumps_at n d v +:+ t) = None.
Proof.
  destruct (dumps_start n d v) as (c & u & -> & Hc).
  apply value_start_facts in Hc as (_ & H1 & H2 & _). rewrite sapp_cons.
  unfold expect. rewrite H1, H2. split; reflexivity.
Qed.

Lemma loads_items_S (fuel : nat) (s : string) (acc : list json) :
  loads_items (S fuel) s acc
  = match loads_value fuel s with
    | Some (v, r) =>
        match expect "," (skip_ws r) with
        | Some r' => loads_items fuel (skip_ws r') (acc ++ [v])
        | None =>
            match expect "]" (skip_ws r) with
            | Some r' => Some (JArr (acc ++ [v]), r')
            | None => None
            end
        end
    | None => None
    end.
Proof. reflexivity. Qed.

Lemma loads_items_dumps (n d d' : nat) (rest : string) (xs : list json) :
  forall (x : json) (acc : list json) (fuel : nat),
    Forall parses (x :: xs) ->
    forallb json_wf (x :: xs) = true ->
    (items_size (x :: xs) <= fuel)%nat ->
    loads_items fuel
      (dumps_at n d x +:+ dumps_more n d xs +:+ nl n d' +:+ "]" +:+ rest) acc
    = Some (JArr (acc ++ x :: xs), rest).
Proof.
  induction xs as [|y xs IH]; intros x acc fuel Hall Hwf Hfuel;
    apply Forall_cons in Hall as [Hx Hall];
    simpl in Hwf; apply andb_prop in Hwf as [Hwx Hwf];
    unfold items_size in Hfuel; simpl in Hfuel;
    (destruct fuel as [|fuel]; [lia|]); rewrite loads_items_S.
  - rewrite (Hx Hwx) by (reflexivity || lia).
    change (dumps_more n d [] +:+ nl n d' +:+ "]" +:+ rest)
      with (nl n d' +:+ "]" +:+ rest).
    rewrite skip_ws_nl. reflexivity.
  - cbn [dumps_more]. rewrite !sapp_assoc.
    rewrite (Hx Hwx) by (reflexivity || lia).
    change (expect "," (skip_ws ("," +:+ ?t))) with (Some t).
    cbv iota beta. rewrite skip_ws_nl, skip_ws_dumps.
    rewrite IH; [rewrite <- app_assoc; reflexivity | exact Hall | exact Hwf |].
    unfold items_size. simpl. lia.
Qed.

Lemma loads_fields_S (fuel : nat) (s : string) (acc : list (string * json)) :
  loads_fields (S fuel) s acc
  = match expect dquote s with
    | Some r =>
        match loads_string (String.length r) r with
        | Some (k, r1) =>
            match expect ":" (skip_ws r1) with
            | Some r2 =>
                match loads_value fuel (skip_ws r2) with
                | Some (v, r3) =>
                    match expect "," (skip_ws r3) with
                    | Some r4 =>
                        loads_fields fuel (skip_ws r4) (dict_set k v acc)
                    | None =>
                        match expect "}" (skip_ws r3) with
                        | Some r4 => Some (JObj (dict_set k v acc), r4)
                        | None => None
                        end
                    end
                | None => None
                end
            | None => None
            end
        | None => None
        end
    | None => None
    end.
Proof. reflexivity. Qed.

Lemma dict_lookup_app {V} (k : string) (a b : list (string * V)) :
  dict_lookup k (a ++ b)
  = match dict_lookup k a with Some v => Some v | None => dict_lookup k b end.
Proof.
  induction a as [|[k' v'] a IH]; simpl; [reflexivity|].
  destruct (String.eqb k k'); [reflexivity | exact IH].
Qed.

Lemma keys_distinct_middle {V} (acc : list (string * V)) (k : string) (x : V)
    (l : list (string * V)) :
  keys_distinct (acc ++ (k, x) :: l) = true -> dict_lookup k acc = None.
Proof.
  induction acc as [|[k' v'] acc IH]; simpl; [reflexivity|].
  rewrite dict_lookup_app. 
  destruct (dict_lookup k' acc) eqn:E1; [discriminate|].
  simpl. destruct (String.eqb k' k) eqn:E; [discriminate|].
  rewrite String.eqb_sym, E. 
  destruct (dict_lookup k' l); [discriminate|]. exact IH.
Qed.

Lemma dict_set_fresh {V} (k : string) (x : V) (acc : list (string * V)) :
  dict_lookup k acc = None -> dict_set k x acc = acc ++ [(k, x)].
Proof.
  induction acc as [|[k' v'] acc IH]; simpl; [reflexivity|].
  destruct (String.eqb k k'); [discriminate|]. intros E. rewrite IH by exact E.
  reflexivity.
Qed.

Lemma loads_fields_dumps (n d d' : nat) (rest : string)
    (kxs : list (string * json)) :
  forall (k : string) (x : json) (acc : list (string * json)) (fuel : nat),
    Forall (fun kv => parses (snd kv)) ((k, x) :: kxs) ->
    forallb (fun kv => json_wf (snd kv)) ((k, x) :: kxs) = true ->
    keys_distinct (acc ++ (k, x) :: kxs) = true ->
    (fields_size ((k, x) :: kxs) <= fuel)%nat ->
    loads_fields fuel
      (quote k +:+ ": " +:+ dumps_at n d x +:+ dumps_more_fields n d kxs
       +:+ nl n d' +:+ "}" +:+ rest) acc
    = Some (JObj (acc ++ (k, x) :: kxs), rest).
Proof.
  induction kxs as [|[k' y] kxs IH]; intros k x acc fuel Hall Hwf Hkeys Hfuel;
    apply Forall_cons in Hall as [Hx Hall]; simpl in Hx;
    simpl in Hwf; apply andb_prop in Hwf as [Hwx Hwf];
    unfold fields_size in Hfuel; simpl in Hfuel;
    (destruct fuel as [|fuel]; [lia|]); rewrite loads_fields_S;
    pose proof (loads_quote k (": " +:+ dumps_at n d x +:+
                  dumps_more_fields n d [] +:+ nl n d' +:+ "}" +:+ rest)) as Q0;
    pose proof (dict_set_fresh k x acc (keys_distinct_middle _ _ _ _ Hkeys))
      as Hset.
  - destruct (quote k +:+ _) as [|c r]; [contradiction|].
    destruct Q0 as [-> Q]. change (expect dquote (String dquote r)) with (Some r).
    cbv iota beta. rewrite Q.
    change (expect ":" (skip_ws (": " +:+ ?t))) with (Some (" " +:+ t)).
    cbv iota beta.
    change (skip_ws (" " +:+ ?t)) with (skip_ws t).
    rewrite skip_ws_dumps.
    rewrite (Hx Hwx) by (reflexivity || lia).
    change (dumps_more_fields n d [] +:+ nl n d' +:+ "}" +:+ rest)
      with (nl n d' +:+ "}" +:+ rest).
    rewrite skip_ws_nl, Hset. reflexivity.
  - clear Q0.
    pose proof (loads_quote k (": " +:+ dumps_at n d x +:+
                  dumps_more_fields n d ((k', y) :: kxs) +:+ nl n d' +:+ "}"
                  +:+ rest)) as Q0.
    destruct (quote k +:+ _) as [|c r]; [contradiction|].
    destruct Q0 as [-> Q]. change (expect dquote (String dquote r)) with (Some r).
    cbv iota beta. rewrite Q.
    change (expect ":" (skip_ws (": " +:+ ?t))) with (Some (" " +:+ t)).
    cbv iota beta.
    change (skip_ws (" " +:+ ?t)) with (skip_ws t).
    rewrite skip_ws_dumps.
    cbn [dumps_more_fields]. rewrite !sapp_assoc.
    rewrite (Hx Hwx) by (reflexivity || lia).
    change (expect "," (skip_ws ("," +:+ ?t))) with (Some t).
    cbv iota beta. rewrite skip_ws_nl, Hset.
    assert (forall t, skip_ws (quote k' +:+ t) = quote k' +:+ t) as -> by reflexivity.
    rewrite IH; [rewrite <- app_assoc; reflexivity | exact Hall | exact Hwf | |].
    + rewrite <- app_assoc. exact Hkeys.
    + unfold fields_size. simpl. lia.
Qed.

Lemma loads_value_dumps (v : json) : parses v.
Proof.
  induction v as [|b|z|s|items IH|fields IH] using json_nested_ind;
    intros Hwf n d fuel rest Hfuel Hd;
    (destruct fuel as [|fuel]; [simpl in Hfuel; lia|]).
  - reflexivity.
  - destruct b; reflexivity.
  - apply loads_value_int, Hd.
  - pose proof (loads_quote s rest) as Q.
    change (dumps_at n d (JStr s)) with (quote s).
    destruct (quote s +:+ rest) as [|c r]; [contradiction|].
    destruct Q as [-> Q]. simpl. rewrite Q. reflexivity.
  - destruct items as [|x xs]; [reflexivity|].
    rewrite dumps_arr, !sapp_assoc.
    change (loads_value (S fuel) ("[" +:+ ?t))
      with (match expect "]" (skip_ws t) with
            | Some r' => Some (JArr [], r')
            | None => loads_items fuel (skip_ws t) []
            end).
    rewrite skip_ws_nl, skip_ws_dumps.
    rewrite (proj1 (expect_dumps n (S d) x _)).
    apply (loads_items_dumps n (S d) d rest xs x []).
    + exact IH.
    + exact Hwf.
    + simpl in Hfuel. unfold items_size. simpl. lia.
  - destruct fields as [|[k x] kxs]; [reflexivity|].
    rewrite dumps_obj, !sapp_assoc.
    change (loads_value (S fuel) ("{" +:+ ?t))
      with (match expect "}" (skip_ws t) with
            | Some r' => Some (JObj [], r')
            | None => loads_fields fuel (skip_ws t) []
            end).
    rewrite skip_ws_nl.
    assert (forall t, skip_ws (quote k +:+ t) = quote k +:+ t) as ->
      by reflexivity.
    assert (forall t, expect "}" (quote k +:+ t) = None) as -> by reflexivity.
    simpl in Hwf. apply andb_prop in Hwf as [Hkeys Hwf].
    apply (loads_fields_dumps n (S d) d rest kxs k x []).
    + exact IH.
    + exact Hwf.
    + exact Hkeys.
    + simpl in Hfuel. unfold fields_size. simpl. lia.
Qed.

Lemma dumps_more_length (n d : nat) (l : list json) :
  Forall (fun x => forall n d, (json_size x <= String.length (dumps_at n d x))%nat) l ->
  (items_size l <= String.length (dumps_more n d l))%nat.
Proof.
  induction 1 as [|x l Hx _ IH]; [reflexivity|].
  cbn [dumps_more]. unfold items_size in *. simpl list_sum.
  rewrite !sapp_length. specialize (Hx n d). simpl String.length. lia.
Qed.

Lemma dumps_more_fields_length (n d : nat) (l : list (string * json)) :
  Forall (fun kv => forall n d,
            (json_size (snd kv) <= String.length (dumps_at n d (snd kv)))%nat) l ->
  (fields_size l <= String.length (dumps_more_fields n d l))%nat.
Proof.
  induction 1 as [|[k x] l Hx _ IH]; [reflexivity|].
  cbn [dumps_more_fields]. unfold fields_size in *. simpl list_sum.
  rewrite !sapp_length. specialize (Hx n d). simpl in Hx.
  simpl String.length. lia.
Qed.

Lemma json_size_le_length (v : json) :
  forall n d, (json_size v <= String.length (dumps_at n d v))%nat.
Proof.
  induction v as [|b|z|s|items IH|fields IH] using json_nested_ind;
    intros n d.
  - simpl. lia.
  - destruct b; simpl; lia.
  - destruct (int_start z) as (c & t & E & _). simpl. rewrite E. simpl. lia.
  - simpl. lia.
  - destruct items as [|x xs]; [simpl; lia|].
    rewrite dumps_arr, !sapp_length.
    apply Forall_cons in IH as [Hx IH].
    pose proof (dumps_more_length n (S d) xs IH) as L.
    specialize (Hx n (S d)). unfold items_size in L.
    simpl json_size. simpl list_sum. unfold nl, newline.
    rewrite !sapp_length. simpl String.length. lia.
  - destruct fields as [|[k x] kxs]; [simpl; lia|].
    rewrite dumps_obj, !sapp_length.
    apply Forall_cons in IH as [Hx IH]. simpl in Hx.
    pose proof (dumps_more_fields_length n (S d) kxs IH) as L.
    specialize (Hx n (S d)). unfold fields_size in L.
    simpl json_size. simpl list_sum. unfold nl, newline.
    rewrite !sapp_length. simpl String.length. lia.
Qed.

Lemma sapp_nil_r (a : string) : a +:+ "" = a.
Proof.
  induction a as [|c a IH]; [reflexivity|]. rewrite sapp_cons, IH. reflexivity.
Qed.

Theorem loads_dumps (n : nat) (v : json) :
  json_wf v = true -> loads (dumps n v) = Some v.
Proof.
  intros Hwf. unfold loads, dumps.
  rewrite <- (sapp_nil_r (dumps_at n 0 v)) at 2.
  rewrite skip_ws_dumps.
  rewrite (loads_value_dumps v Hwf); [reflexivity| |reflexivity].
  pose proof (json_size_le_length v n 0). lia.
Qed.

(** *** What the parser returns is well formed *)

Lemma dict_lookup_set {V} (k k' : string) (v : V) (d : list (string * V)) :
  dict_lookup k' (dict_set k v d)
  = if String.eqb k' k then Some v else dict_lookup k' d.
Proof.
  induction d as [|[k0 v0] d IH]; simpl.
  - destruct (String.eqb k' k); reflexivity.
  - destruct (String.eqb k k0) eqn:E; simpl.
    + apply String.eqb_eq in E as <-.
      destruct (String.eqb k' k); reflexivity.
    + destruct (String.eqb k' k0) eqn:E'.
      * apply String.eqb_eq in E' as ->.
        rewrite String.eqb_sym, E. reflexivity.
      * exact IH.
Qed.

Lemma keys_distinct_set {V} (k : string) (v : V) (d : list (string * V)) :
  keys_distinct d = true -> keys_distinct (dict_set k v d) = true.
Proof.
  induction d as [|[k0 v0] d IH]; simpl; [reflexivity|].
  destruct (dict_lookup k0 d) eqn:E0; [discriminate|]. intros Hd.
  destruct (String.eqb k k0) eqn:E; simpl.
  - apply String.eqb_eq in E as ->. rewrite E0. exact Hd.
  - rewrite dict_lookup_set, String.eqb_sym, E, E0. apply IH, Hd.
Qed.

Lemma forallb_set (k : string) (v : json) (d : list (string * json)) :
  json_wf v = true ->
  forallb (fun kv => json_wf (snd kv)) d = true ->
  forallb (fun kv => json_wf (snd kv)) (dict_set k v d) = true.
Proof.
  intros Hv. induction d as [|[k0 v0] d IH]; simpl.
  - rewrite Hv. reflexivity.
  - intros Hd. apply andb_prop in Hd as [H0 Hd].
    destruct (String.eqb k k0); simpl.
    + rewrite Hv. exact Hd.
    + rewrite H0. apply IH, Hd.
Qed.

Lemma forallb_snoc (acc : list json) (v : json) :
  forallb json_wf acc = true -> json_wf v = true ->
  forallb json_wf (acc ++ [v]) = true.
Proof.
  intros Ha Hv. rewrite forallb_app, Ha. simpl. rewrite Hv. reflexivity.
Qed.

Lemma loads_value_S (fuel : nat) (c : ascii) (r : string) :
  loads_value (S fuel) (String c r)
  = if Ascii.eqb c dquote then
      match loads_string (String.length r) r with
      | Some (t, r') => Some (JStr t, r')
      | None => None
      end
    else if Ascii.eqb c "[" then
      match expect "]" (skip_ws r) with
      | Some r' => Some (JArr [], r')
      | None => loads_items fuel (skip_ws r) []
      end
    else if Ascii.eqb c "{" then
      match expect "}" (skip_ws r) with
      | Some r' => Some (JObj [], r')
      | None => loads_fields fuel (skip_ws r) []
      end
    else if Ascii.eqb c "n" then
      option_map (fun r' => (JNull, r')) (strip_prefix "ull" r)
    else if Ascii.eqb c "t" then
      option_map (fun r' => (JBool true, r')) (strip_prefix "rue" r)
    else if Ascii.eqb c "f" then
      option_map (fun r' => (JBool false, r')) (strip_prefix "alse" r)
    else
      option_map (fun nr => (JInt (fst nr), snd nr)) (loads_int (String c r)).
Proof. reflexivity. Qed.

Lemma loads_wf_fuel (fuel : nat) :
  (forall s v r, loads_value fuel s = Some (v, r) -> json_wf v = true)
  /\ (forall s acc v r,
        forallb json_wf acc = true ->
        loads_items fuel s acc = Some (v, r) -> json_wf v = true)
  /\ (forall s acc v r,
        keys_distinct acc = true ->
        forallb (fun kv => json_wf (snd kv)) acc = true ->
        loads_fields fuel s acc = Some (v, r) -> json_wf v = true).
Proof.
  induction fuel as [|fuel (IHv & IHi & IHf)];
    [repeat split; intros; discriminate|].
  split; [|split].
  - intros [|c s] v r; [discriminate|]. rewrite loads_value_S.
    repeat match goal with
           | |- context [if ?b then _ else _] => destruct b
           end.
    + destruct (loads_string _ _) as [[t r']|]; [|discriminate].
      intros [= <- _]. reflexivity.
    + destruct (expect "]" _).
      * intros [= <- _]. reflexivity.
      * apply IHi. reflexivity.
    + destruct (expect "}" _).
      * intros [= <- _]. reflexivity.
      * apply IHf; reflexivity.
    + destruct (strip_prefix _ _); [|discriminate]. intros [= <- _]. reflexivity.
    + destruct (strip_prefix _ _); [|discriminate]. intros [= <- _]. reflexivity.
    + destruct (strip_prefix _ _); [|discriminate]. intros [= <- _]. reflexivity.
    + destruct (loads_int _); [|discriminate]. intros [= <- _]. reflexivity.
  - intros s acc v r Hacc. rewrite loads_items_S.
    destruct (loads_value fuel s) as [[x r1]|] eqn:Ex; [|discriminate].
    pose proof (forallb_snoc acc x Hacc (IHv _ _ _ Ex)) as Hacc'.
    destruct (expect "," _).
    + apply IHi, Hacc'.
    + destruct (expect "]" _); [|discriminate]. intros [= <- _]. exact Hacc'.
  - intros s acc v r Hkeys Hacc. rewrite loads_fields_S.
    destruct (expect dquote s) as [r0|]; [|discriminate].
    destruct (loads_string _ _) as [[k r1]|]; [|discriminate].
    destruct (expect ":" _) as [r2|]; [|discriminate].
    destruct (loads_value fuel _) as [[x r3]|] eqn:Ex; [|discriminate].
    pose proof (keys_distinct_set k x acc Hkeys) as Hkeys'.
    pose proof (forallb_set k x acc (IHv _ _ _ Ex) Hacc) as Hacc'.
    destruct (expect "," _).
    + apply IHf; assumption.
    + destruct (expect "}" _); [|discriminate]. intros [= <- _].
      simpl. rewrite Hkeys', Hacc'. reflexivity.
Qed.

Theorem loads_wf (s : string) (v : json) :
  loads s = Some v -> json_wf v = true.
Proof.
  unfold loads.
  destruct (loads_value _ _) as [[x r]|] eqn:E; [|discriminate].
  destruct (skip_ws r); [|discriminate]. intros [= <-].
  exact (proj1 (loads_wf_fuel _) _ _ _ E).
Qed.

End RefFacts.

(** The reference platform satisfies the laws of the [json] module. *)
#[global] Instance platform_json_laws
    (tool : list (list string) -> CompletedProcess)
    (env : string -> option string) : JsonLaws (platform tool env).
Proof.
  split.
  - exact RefFacts.loads_wf.
  - exact RefFacts.loads_dumps.
Qed.

(** ** Confirmation *)

Lemma lower_char_y (c : ascii) :
  lower_char c = "y"%char <-> c = "y"%char \/ c = "Y"%char.
Proof.
  destruct c as [[] [] [] [] [] [] [] []]; vm_compute;
    (split; [intros E; first [discriminate E | auto] | intros [E|E]; first [discriminate E | reflexivity]]).
Qed.

Lemma lower_y (s : string) : lower s = "y" <-> s = "y" \/ s = "Y".
Proof.
  destruct s as [|c [|d t]]; simpl.
  - split; [discriminate | intros [E|E]; discriminate E].
  - split.
    + intros E. injection E as E. apply lower_char_y in E.
      destruct E as [->| ->]; auto.
    + intros [E|E]; injection E as ->; reflexivity.
  - split; [discriminate | intros [E|E]; discriminate E].
Qed.

Lemma lstrip_blank (pre t : string) :
  is_blank pre = true -> lstrip (pre +:+ t) = lstrip t.
Proof.
  induction pre as [|c pre IH]; simpl; [reflexivity|].
  unfold is_blank; simpl. intros E. apply andb_prop in E as [Ec E].
  rewrite Ec. apply IH, E.
Qed.

Lemma lstrip_split (s : string) :
  exists pre, s = pre +:+ lstrip s /\ is_blank pre = true.
Proof.
  induction s as [|c s IH]; simpl.
  - exists "". split; reflexivity.
  - destruct (is_space c) eqn:Ec.
    + destruct IH as (pre & E & B). exists (String c pre). split.
      * change (String c s = String c (pre +:+ lstrip s)). f_equal. exact E.
      * unfold is_blank in *. simpl. rewrite Ec. exact B.
    + exists "". split; reflexivity.
Qed.

Lemma rstrip_blank (s : string) : rstrip s = "" <-> is_blank s = true.
Proof.
  induction s as [|c s IH]; simpl.
  - split; reflexivity.
  - unfold is_blank in *. simpl. destruct (rstrip s) eqn:R.
    + destruct (is_space c); simpl.
      * split; [intros _; apply IH; reflexivity | reflexivity].
      * split; discriminate.
    + split; [discriminate|]. intros E. apply andb_prop in E as [_ E].
      apply IH in E. discriminate E.
Qed.

Lemma rstrip_single (t : string) (c : ascii) :
  rstrip t = String c "" <->
  exists post, t = String c post /\ is_blank post = true /\ is_space c = false.
Proof.
  destruct t as [|a t]; simpl.
  - split; [discriminate | intros (post & E & _); discriminate E].
  - destruct (rstrip t) eqn:R.
    + apply rstrip_blank in R. destruct (is_space a) eqn:Ea.
      * split; [discriminate|]. intros (post & E & _ & Ec).
        injection E as -> _. congruence.
      * split.
        -- intros E. injection E as ->. exists t. auto.
        -- intros (post & E & _). injection E as -> _. reflexivity.
    + split.
      * intros E. discriminate E.
      * intros (post & E & B & _). injection E as -> ->.
        apply rstrip_blank in B. congruence.
Qed.

Lemma strip_single (line : string) (c : ascii) :
  strip line = String c "" <->
  exists pre post, line = pre +:+ String c post
                   /\ is_blank pre = true /\ is_blank post = true
                   /\ is_space c = false.
Proof.
  unfold strip. split.
  - intros E. apply rstrip_single in E as (post & E & B & Ec).
    destruct (lstrip_split line) as (pre & El & Bp).
    exists pre, post. rewrite E in El. auto.
  - intros (pre & post & -> & Bp & B & Ec).
    rewrite lstrip_blank by exact Bp. simpl. rewrite Ec.
    apply rstrip_single. exists post. auto.
Qed.

(** C4 (as stated, refuted): the input [Y] is accepted. *)
Lemma confirm_accepts_capital_Y :
  fst (confirm_action "push" "kv-test" (mkState [] [] empty ["Y"]))
  = Return true.
Proof. reflexivity. Qed.

(** C4 (amended): [confirm_action] reads one line, shows the prompt, touches
    nothing else, and returns true exactly when the line is [y] or [Y]
    surrounded by any amount of whitespace; so [y], [Y] and [ y ] are
    accepted and [yes], [n] and the empty line are declined. *)
Theorem confirm_action_accepts_y_only
    (action vaultname line : string) (rest : list string) (s : State) :
  stdin s = line :: rest ->
  exists answer : bool,
    confirm_action action vaultname s
    = (Return answer,
       mkState (calls s)
         (console s ++ [Prompt ("Are you sure you want to " +:+ action
            +:+ " secrets in the vault '" +:+ vaultname +:+ "'? [y/n]: ")])
         (files s) rest)
    /\ (answer = true <->
        exists pre post c,
          line = pre +:+ String c post
          /\ is_blank pre = true /\ is_blank post = true
          /\ (c = "y"%char \/ c = "Y"%char))
    /\ (line = "y" \/ line = "Y" \/ line = " y " -> answer = true)
    /\ (line = "yes" \/ line = "" \/ line = "n" -> answer = false).
Proof.
  intros Hin. exists (String.eqb (lower (strip line)) "y").
  split; [|split; [|split]].
  - unfold confirm_action, bind, input, ret. rewrite Hin. reflexivity.
  - rewrite String.eqb_eq, lower_y. split.
    + intros [E|E]; apply strip_single in E as (pre & post & E & Bp & B & _);
        exists pre, post; eauto 10.
    + intros (pre & post & c & E & Bp & B & [-> | ->]); [left|right];
        apply strip_single; exists pre, post; auto.
  - intros [-> | [-> | ->]]; reflexivity.
  - intros [-> | [-> | ->]]; reflexivity.
Qed.

Lemma confirm_action_accepts_y_only_witness :
  exists answer : bool,
    confirm_action "pull" "kv-test" (mkState [] [] empty [" Y  "; "later"])
    = (Return answer,
       mkState []
         [Prompt "Are you sure you want to pull secrets in the vault 'kv-test'? [y/n]: "]
         empty ["later"])
    /\ answer = true.
Proof.
  destruct (confirm_action_accepts_y_only "pull" "kv-test" " Y  " ["later"]
              (mkState [] [] empty [" Y  "; "later"]) eq_refl)
    as (answer & E & Hiff & _).
  exists answer. split; [exact E|].
  apply Hiff. exists " ", "  ", "Y"%char. auto.
Defined.

(** ** Running commands *)

Lemma argv_strings (cmd : list string) : argv (map JStr cmd) = Return cmd.
Proof. induction cmd as [|a cmd IH]; simpl; [|rewrite IH]; reflexivity. Qed.

Lemma subprocess_run_strings `{Platform} (cmd : list string) (s : State) :
  subprocess_run (map JStr cmd) s
  = (Return (az (calls s ++ [cmd])),
     mkState (calls s ++ [cmd]) (console s) (files s) (stdin s)).
Proof. unfold subprocess_run. rewrite argv_strings. reflexivity. Qed.

(** ** Configuration *)

(** C8: without a subscription ID from the flag or from the environment,
    [main] prints the error and exits with code 1; no command has been run,
    no file written and no input read. *)
Theorem main_requires_subscription `{Platform} (args : Args) (s : State) :
  opt_truthy (arg_subscription args) = false ->
  opt_truthy (getenv "AZURE_SUBSCRIPTION_ID") = false ->
  main args s
  = (Exit 1,
     mkState (calls s)
       (console s ++ [Echo "Error: No subscription ID provided. Set the AZURE_SUBSCRIPTION_ID environment variable or use the --subscription flag."])
       (files s) (stdin s)).
Proof.
  intros Hflag Henv. unfold main, main_setup, bind, py_or.
  rewrite Hflag, Henv. reflexivity.
Qed.

Lemma main_requires_subscription_witness :
  @main (platform (fun _ => mkProc 0 "[]" "") (fun _ => None))
        (mkArgs Pull (Some "kv-test") "out.json" None None false (Some ""))
        (mkState [] [] empty ["y"])
  = (Exit 1,
     mkState []
       [Echo "Error: No subscription ID provided. Set the AZURE_SUBSCRIPTION_ID environment variable or use the --subscription flag."]
       empty ["y"]).
Proof.
  exact (@main_requires_subscription
           (platform (fun _ => mkProc 0 "[]" "") (fun _ => None))
           (mkArgs Pull (Some "kv-test") "out.json" None None false (Some ""))
           (mkState [] [] empty ["y"]) eq_refl eq_refl).
Defined.

(** ** The tag filter of the command line *)

Lemma split_length (c : ascii) (t : string) :
  length (split c t) = S (count_char c t).
Proof.
  induction t as [|d t IH]; simpl; [reflexivity|].
  destruct (Ascii.eqb d c); simpl.
  - rewrite IH. reflexivity.
  - destruct (split c t); simpl in *; [discriminate IH | exact IH].
Qed.

Lemma split_none (c : ascii) (t : string) :
  count_char c t = 0%nat -> split c t = [t].
Proof.
  induction t as [|d t IH]; simpl; [reflexivity|].
  destruct (Ascii.eqb d c); [discriminate|].
  intros Z. rewrite (IH Z). reflexivity.
Qed.

Lemma split_one (c : ascii) (t : string) :
  count_char c t = 1%nat ->
  split c t = [before c t; after c t]
  /\ t = before c t +:+ String c (after c t).
Proof.
  induction t as [|d t IH]; simpl; [discriminate|].
  destruct (Ascii.eqb d c) eqn:E; simpl.
  - intros Hc. apply Ascii.eqb_eq in E as ->.
    rewrite split_none by lia. split; reflexivity.
  - intros Hc. destruct (IH Hc) as [-> Et]. split; [reflexivity|].
    change (String d t = String d (before c t +:+ String c (after c t))).
    f_equal. exact Et.
Qed.

Lemma dict_update_good (tokens : list string) (d : list (string * string)) :
  Forall (fun t => count_char "=" t = 1%nat) tokens ->
  dict_update d (map (split "=") tokens)
  = Return (fold_left (fun d t => dict_set (before "=" t) (after "=" t) d)
                      tokens d).
Proof.
  intros Hall. revert d. induction Hall as [|t tokens Ht _ IH]; intros d.
  - reflexivity.
  - simpl. destruct (split_one "=" t Ht) as [-> _]. apply IH.
Qed.

Lemma dict_update_bad (tokens : list string) (d : list (string * string)) :
  Exists (fun t => count_char "=" t <> 1%nat) tokens ->
  dict_update d (map (split "=") tokens) = Raise ValueError.
Proof.
  revert d. induction tokens as [|t tokens IH]; intros d Hex.
  - inversion Hex.
  - simpl. pose proof (split_length "=" t) as L.
    destruct (Nat.eq_dec (count_char "=" t) 1%nat) as [Ht|Ht].
    + destruct (split_one "=" t Ht) as [-> _]. apply IH.
      inversion Hex; subst; [contradiction | assumption].
    + destruct (split "=" t) as [|p [|q [|r l]]]; simpl in L;
        try reflexivity. lia.
Qed.

(** C10: when every token of [--tags] has exactly one [=], the tag filter is
    the mapping from the text before the [=] to the text after it, each
    token being that key, [=], that value; when some token has no [=] or
    more than one, building the filter raises [ValueError], and a [main]
    that has passed configuration, session and confirmation ends with that
    exception in the state it had then: no listing or other command is
    run, nothing is printed and there is no [exit(1)]. *)
Theorem tag_tokens_need_one_equals (tokens : list string) :
  tokens <> [] ->
  (Forall (fun t => count_char "=" t = 1%nat) tokens ->
   tag_dict_of (Some tokens) = Return (tag_mapping tokens)
   /\ Forall (fun t => t = before "=" t +:+ "=" +:+ after "=" t) tokens)
  /\ (Exists (fun t => count_char "=" t <> 1%nat) tokens ->
      tag_dict_of (Some tokens) = Raise ValueError
      /\ forall (P : Platform) (args : Args) (s s1 : State) (vaultname : string),
           arg_direction args = Pull ->
           arg_tags args = Some tokens ->
           main_setup args s = (Return vaultname, s1) ->
           main args s = (Raise ValueError, s1)).
Proof.
  intros Hne. destruct tokens as [|t0 tokens]; [now destruct Hne|]. split.
  - intros Hall. split.
    + exact (dict_update_good (t0 :: tokens) [] Hall).
    + eapply Forall_impl; [exact Hall|]. intros t Ht.
      apply (split_one "=" t Ht).
  - intros Hex.
    assert (tag_dict_of (Some (t0 :: tokens)) = Raise ValueError) as Hraise.
    { exact (dict_update_bad (t0 :: tokens) [] Hex). }
    split; [exact Hraise|].
    intros P args s s1 vaultname Hdir Htags Hsetup.
    unfold main, bind. rewrite Hsetup. unfold main_dispatch, bind, lift.
    rewrite Hdir, Htags, Hraise. reflexivity.
Qed.

Lemma tag_tokens_need_one_equals_witness :
  tag_dict_of (Some ["env=prod"; "team=core"])
  = Return [("env", "prod"); ("team", "core")]
  /\ @main (platform (fun _ => mkProc 0 "[]" "") (fun _ => None))
       (mkArgs Pull (Some "kv-test") "out.json" (Some ["env=prod"; "broken"])
               None false (Some "sub-1"))
       (mkState [] [] empty ["y"])
     = (Raise ValueError,
        mkState [["az"; "account"; "show"];
                 ["az"; "account"; "set"; "--subscription"; "sub-1"]]
          [Echo "Switching to subscription: sub-1";
           Echo "Subscription switched successfully.";
           Prompt "Are you sure you want to pull secrets in the vault 'kv-test'? [y/n]: "]
          empty []).
Proof.
  split.
  - assert (["env=prod"; "team=core"] <> []) as Hne by discriminate.
    destruct (tag_tokens_need_one_equals ["env=prod"; "team=core"] Hne)
      as [Hgood _].
    apply Hgood. repeat constructor.
  - assert (["env=prod"; "broken"] <> []) as Hne by discriminate.
    destruct (tag_tokens_need_one_equals ["env=prod"; "broken"] Hne)
      as [_ Hbad].
    assert (Exists (fun t => count_char "=" t <> 1%nat) ["env=prod"; "broken"])
      as Hex.
    { apply Exists_cons_tl, Exists_cons_hd. simpl. discriminate. }
    destruct (Hbad Hex) as [_ Hmain].
    apply Hmain with (vaultname := "kv-test"); reflexivity.
Defined.

(** ** Pull: a failed listing *)

(** C6: when the listing command returns a non-zero status, [pull_secrets]
    prints the fixed error line and the tool's diagnostic and exits with
    code 1; the listing is the only command it has run, and every file,
    the transfer file included, is as it was. *)
Theorem pull_stops_on_failed_listing `{Platform}
    (vaultname : string) (tags : list (string * string)) (filename : string)
    (secret_name_pattern : option string) (verbose : bool) (s : State) :
  let listing := az (calls s ++ [list_command vaultname tags]) in
  returncode listing <> 0 ->
  pull_secrets vaultname tags filename secret_name_pattern verbose s
  = (Exit 1,
     mkState (calls s ++ [list_command vaultname tags])
       (console s ++ [Echo ("Pulling secrets from vault: " +:+ vaultname);
                      Echo "Error fetching secrets";
                      Echo (stderr listing)])
       (files s) (stdin s)).
Proof.
  intros listing Hrc. unfold pull_secrets, bind, click_echo.
  rewrite subprocess_run_strings. cbn [calls console files stdin].
  fold listing. apply Z.eqb_neq in Hrc. rewrite Hrc. cbn.
  rewrite <- !app_assoc. reflexivity.
Qed.

Lemma pull_stops_on_failed_listing_witness :
  @pull_secrets (platform (fun _ => mkProc 1 "" "ERROR: vault not found")
                          (fun _ => None))
     "kv-test" [("env", "prod")] "out.json" None false
     (mkState [] [] {["out.json" := "[]"]} [])
  = (Exit 1,
     mkState [["az"; "keyvault"; "secret"; "list"; "--vault-name"; "kv-test";
               "--query"; "[?tags.env == 'prod'].id"; "-o"; "json"]]
       [Echo "Pulling secrets from vault: kv-test";
        Echo "Error fetching secrets";
        Echo "ERROR: vault not found"]
       {["out.json" := "[]"]} []).
Proof.
  apply (@pull_stops_on_failed_listing
           (platform (fun _ => mkProc 1 "" "ERROR: vault not found")
                     (fun _ => None))).
  cbn. discriminate.
Defined.

(** ** Push *)

Section Push.
Context `{Platform}.

Lemma push_loop_app (vaultname : string) (pre rest : list json)
    (s s1 : State) :
  push_loop vaultname pre s = (Return tt, s1) ->
  push_loop vaultname (pre ++ rest) s = push_loop vaultname rest s1.
Proof.
  revert s. induction pre as [|r pre IH]; intros s; simpl.
  - unfold ret. intros E. injection E as ->. reflexivity.
  - unfold bind. destruct (push_secret vaultname r s) as [[[]|c|e] s'];
      try discriminate. apply IH.
Qed.

Lemma push_loop_stops (vaultname : string) (r : json) (post : list json)
    (s s' : State) (code : Z) :
  push_secret vaultname r s = (Exit code, s') ->
  push_loop vaultname (r :: post) s = (Exit code, s').
Proof. intros E. simpl. unfold bind. rewrite E. reflexivity. Qed.

Lemma push_loop_raises (vaultname : string) (r : json) (post : list json)
    (s s' : State) (e : exn) :
  push_secret vaultname r s = (Raise e, s') ->
  push_loop vaultname (r :: post) s = (Raise e, s').
Proof. intros E. simpl. unfold bind. rewrite E. reflexivity. Qed.

Lemma push_secrets_enters_loop (vaultname filename text : string)
    (records : list json) (s : State) :
  files s !! filename = Some text ->
  json_loads text = Some (JArr records) ->
  push_secrets vaultname filename s
  = push_loop vaultname records (push_started vaultname s).
Proof.
  intros Hfile Hparse.
  unfold push_secrets, bind, click_echo, json_load_file, push_started.
  cbn [files]. rewrite Hfile, Hparse. reflexivity.
Qed.

Lemma argv_app (l : list string) (args : list json) :
  argv (map JStr l ++ args)
  = match argv args with Return l' => Return (l ++ l') | other => other end.
Proof.
  induction l as [|a l IH]; simpl.
  - destruct (argv args); reflexivity.
  - rewrite IH. destruct (argv args); reflexivity.
Qed.

Lemma dict_contains_lookup (k : string) (fields : list (string * json))
    (v : json) :
  dict_lookup k fields = Some v -> dict_contains k fields = true.
Proof. unfold dict_contains. intros ->. reflexivity. Qed.

Lemma push_secret_rejected (vaultname name value : string)
    (fields tags : list (string * json)) (s : State) :
  dict_lookup "name" fields = Some (JStr name) ->
  dict_lookup "value" fields = Some (JStr value) ->
  dict_get "tags" (JObj []) fields = JObj tags ->
  returncode (az (calls s ++ [set_command vaultname name value tags])) <> 0 ->
  push_secret vaultname (JObj fields) s
  = (Exit 1,
     mkState (calls s ++ [set_command vaultname name value tags])
             (console s ++ [Echo ("Error pushing secret " +:+ name)])
             (files s) (stdin s)).
Proof.
  intros Hname Hvalue Htags Hrc. unfold push_secret.
  rewrite (dict_contains_lookup _ _ _ Hname), (dict_contains_lookup _ _ _ Hvalue).
  cbn [andb]. unfold bind, getitem. rewrite Hname, Hvalue, Htags.
  cbn [ret py_items]. unfold subprocess_run.
  change [JStr "az"; JStr "keyvault"; JStr "secret"; JStr "set";
          JStr "--vault-name"; JStr vaultname; JStr "--name"; JStr name;
          JStr "--value"; JStr value; JStr "--tags"]
    with (map JStr ["az"; "keyvault"; "secret"; "set"; "--vault-name";
                    vaultname; "--name"; name; "--value"; value; "--tags"]).
  rewrite argv_app.
  rewrite <- (map_map (fun kv => fst kv +:+ "=" +:+ py_str (snd kv)) JStr).
  rewrite argv_strings. fold (set_command vaultname name value tags).
  apply Z.eqb_neq in Hrc. rewrite Hrc. reflexivity.
Qed.

End Push.

(** C2: when the records before a record have all been pushed and the set
    command for that record returns a non-zero status, [push_secrets] prints
    the error line with the record's name and exits with code 1; the
    rejected set command is the last command of the run, whatever records
    follow in the file. *)
Theorem push_stops_at_rejected_record `{Platform}
    (vaultname filename text name value : string)
    (pre post : list json) (fields tags : list (string * json))
    (s s1 : State) :
  files s !! filename = Some text ->
  json_loads text = Some (JArr (pre ++ JObj fields :: post)) ->
  push_loop vaultname pre (push_started vaultname s) = (Return tt, s1) ->
  dict_lookup "name" fields = Some (JStr name) ->
  dict_lookup "value" fields = Some (JStr value) ->
  dict_get "tags" (JObj []) fields = JObj tags ->
  returncode (az (calls s1 ++ [set_command vaultname name value tags])) <> 0 ->
  push_secrets vaultname filename s
  = (Exit 1,
     mkState (calls s1 ++ [set_command vaultname name value tags])
             (console s1 ++ [Echo ("Error pushing secret " +:+ name)])
             (files s1) (stdin s1)).
Proof.
  intros Hfile Hparse Hpre Hname Hvalue Htags Hrc.
  rewrite (push_secrets_enters_loop _ _ _ _ _ Hfile Hparse).
  rewrite (push_loop_app _ _ _ _ _ Hpre).
  apply push_loop_stops, push_secret_rejected; assumption.
Qed.

Lemma push_stops_at_rejected_record_witness :
  let P := platform (vault_tool (mkProc 0 "[]" "") [] ["api-key"]) no_env in
  let text := json_text "[{'name': 'db-pass', 'value': 's3cret', 'tags': {'env': 'prod'}}, {'name': 'api-key', 'value': 'k1'}, {'name': 'later', 'value': 'v'}]" in
  @push_secrets P "kv-test" "in.json" (mkState [] [] {["in.json" := text]} [])
  = (Exit 1,
     mkState
       [["az"; "keyvault"; "secret"; "set"; "--vault-name"; "kv-test";
         "--name"; "db-pass"; "--value"; "s3cret"; "--tags"; "env=prod"];
        ["az"; "keyvault"; "secret"; "set"; "--vault-name"; "kv-test";
         "--name"; "api-key"; "--value"; "k1"; "--tags"]]
       [Echo "Pushing secrets to vault: kv-test";
        Echo "Secret db-pass pushed successfully";
        Echo "Error pushing secret api-key"]
       {["in.json" := text]} []).
Proof.
  intros P text.
  refine (@push_stops_at_rejected_record P "kv-test" "in.json" text
            "api-key" "k1"
            [JObj [("name", JStr "db-pass"); ("value", JStr "s3cret");
                   ("tags", JObj [("env", JStr "prod")])]]
            [JObj [("name", JStr "later"); ("value", JStr "v")]]
            [("name", JStr "api-key"); ("value", JStr "k1")] []
            (mkState [] [] {["in.json" := text]} [])
            (mkState
               [["az"; "keyvault"; "secret"; "set"; "--vault-name"; "kv-test";
                 "--name"; "db-pass"; "--value"; "s3cret"; "--tags";
                 "env=prod"]]
               [Echo "Pushing secrets to vault: kv-test";
                Echo "Secret db-pass pushed successfully"]
               {["in.json" := text]} [])
            _ _ _ _ _ _ _).
  - reflexivity.
  - vm_compute. reflexivity.
  - vm_compute. reflexivity.
  - reflexivity.
  - reflexivity.
  - reflexivity.
  - vm_compute. discriminate.
Defined.

Section PushRecords.
Context `{Platform}.

Lemma push_secret_malformed (vaultname : string) (r : json) (s : State) :
  has_required_fields r = false ->
  push_secret vaultname r s
  = (Exit 1,
     mkState (calls s)
       (console s ++ [Echo "Error: Each secret must have 'name' and 'value' fields."])
       (files s) (stdin s)).
Proof.
  intros Hbad. unfold push_secret.
  destruct r as [| | | |items|fields]; try reflexivity.
  simpl in Hbad. rewrite Hbad. reflexivity.
Qed.

Lemma has_required_fields_of_valid (r : json) :
  spec_valid_record r = true -> has_required_fields r = true.
Proof.
  destruct r as [| | | |items|fields]; simpl; try discriminate.
  unfold dict_contains.
  destruct (dict_lookup "name" fields), (dict_lookup "value" fields);
    simpl; try discriminate; try reflexivity.
  rewrite andb_false_r. discriminate.
Qed.

Lemma push_secret_null_tags (vaultname : string)
    (fields : list (string * json)) (s : State) :
  dict_contains "name" fields = true ->
  dict_contains "value" fields = true ->
  dict_lookup "tags" fields = Some JNull ->
  push_secret vaultname (JObj fields) s = (Raise AttributeError, s).
Proof.
  intros Hname Hvalue Htags. unfold push_secret. rewrite Hname, Hvalue.
  cbn [andb]. unfold dict_contains in Hname, Hvalue.
  unfold bind, getitem, dict_get. rewrite Htags.
  destruct (dict_lookup "name" fields); [|discriminate].
  destruct (dict_lookup "value" fields); [|discriminate].
  reflexivity.
Qed.

(** X20: the hypotheses of the results on [push_secrets] lose nothing: a
    command is run for a record only if its name and value are strings and
    its tags, when present, are an object. *)
Lemma push_secret_runs_only_for_secrets (vaultname : string) (r : json)
    (s : State) :
  calls (snd (push_secret vaultname r s)) <> calls s -> is_Some (as_secret r).
Proof.
  unfold push_secret, as_secret.
  destruct r as [| | | |items|fields]; try (simpl; congruence).
  unfold dict_contains, bind, getitem.
  destruct (dict_lookup "name" fields) as [name|]; [|simpl; congruence].
  destruct (dict_lookup "value" fields) as [value|]; [|simpl; congruence].
  cbn [andb ret].
  destruct (dict_get "tags" (JObj []) fields) as [| | | | |tags];
    try (simpl; congruence).
  cbn [py_items ret]. unfold subprocess_run.
  destruct name as [| | |name| |]; try (simpl; congruence).
  destruct value as [| | |value| |]; try (simpl; congruence).
  intros _. eexists. reflexivity.
Qed.

End PushRecords.

(** C3 (as stated, refuted): a record whose name and value are empty strings
    is not valid in the spec's sense, yet [push_secrets] runs the set command
    for it: with a tool that accepts it the run goes on to the next record,
    with a tool that rejects it the run ends on the push error, not on the
    malformed-record error. *)
Lemma push_sets_record_with_empty_fields :
  let text := json_text "[{'name': '', 'value': ''}, {'name': 'later', 'value': 'v'}]" in
  let s := mkState [] [] {["in.json" := text]} [] in
  let set_empty := ["az"; "keyvault"; "secret"; "set"; "--vault-name";
                    "kv-test"; "--name"; ""; "--value"; ""; "--tags"] in
  spec_valid_record (JObj [("name", JStr ""); ("value", JStr "")]) = false
  /\ @push_secrets (platform (vault_tool (mkProc 0 "[]" "") [] []) no_env)
       "kv-test" "in.json" s
     = (Return tt,
        mkState
          [set_empty;
           ["az"; "keyvault"; "secret"; "set"; "--vault-name"; "kv-test";
            "--name"; "later"; "--value"; "v"; "--tags"]]
          [Echo "Pushing secrets to vault: kv-test";
           Echo "Secret  pushed successfully";
           Echo "Secret later pushed successfully"]
          {["in.json" := text]} [])
  /\ @push_secrets (platform (vault_tool (mkProc 0 "[]" "") [] [""]) no_env)
       "kv-test" "in.json" s
     = (Exit 1,
        mkState [set_empty]
          [Echo "Pushing secrets to vault: kv-test";
           Echo "Error pushing secret "]
          {["in.json" := text]} []).
Proof. vm_compute. repeat split. Qed.

(** C3 (amended): the validation of [push_secrets] is that the record is an
    object with the keys [name] and [value]. When the records before a
    record have all been pushed and that record fails the validation, the
    run prints the malformed-record error and exits with code 1 without
    running a command for it or for any later record; such a record is
    also invalid in the spec's sense. Empty strings pass the validation. *)
Theorem push_stops_at_malformed_record `{Platform}
    (vaultname filename text : string) (pre post : list json) (r : json)
    (s s1 : State) :
  files s !! filename = Some text ->
  json_loads text = Some (JArr (pre ++ r :: post)) ->
  push_loop vaultname pre (push_started vaultname s) = (Return tt, s1) ->
  has_required_fields r = false ->
  push_secrets vaultname filename s
  = (Exit 1,
     mkState (calls s1)
       (console s1 ++ [Echo "Error: Each secret must have 'name' and 'value' fields."])
       (files s1) (stdin s1))
  /\ spec_valid_record r = false
  /\ has_required_fields (JObj [("name", JStr ""); ("value", JStr "")]) = true.
Proof.
  intros Hfile Hparse Hpre Hbad. split; [|split].
  - rewrite (push_secrets_enters_loop _ _ _ _ _ Hfile Hparse).
    rewrite (push_loop_app _ _ _ _ _ Hpre).
    apply push_loop_stops, push_secret_malformed, Hbad.
  - destruct (spec_valid_record r) eqn:E; [|reflexivity].
    apply has_required_fields_of_valid in E. congruence.
  - reflexivity.
Qed.

Lemma push_stops_at_malformed_record_witness :
  let P := platform (vault_tool (mkProc 0 "[]" "") [] []) no_env in
  let text := json_text "[{'name': 'db-pass', 'value': 's3cret'}, {'name': 'no-value'}, {'name': 'later', 'value': 'v'}]" in
  @push_secrets P "kv-test" "in.json" (mkState [] [] {["in.json" := text]} [])
  = (Exit 1,
     mkState
       [["az"; "keyvault"; "secret"; "set"; "--vault-name"; "kv-test";
         "--name"; "db-pass"; "--value"; "s3cret"; "--tags"]]
       [Echo "Pushing secrets to vault: kv-test";
        Echo "Secret db-pass pushed successfully";
        Echo "Error: Each secret must have 'name' and 'value' fields."]
       {["in.json" := text]} []).
Proof.
  intros P text.
  refine (proj1 (@push_stops_at_malformed_record P "kv-test" "in.json" text
            [JObj [("name", JStr "db-pass"); ("value", JStr "s3cret")]]
            [JObj [("name", JStr "later"); ("value", JStr "v")]]
            (JObj [("name", JStr "no-value")])
            (mkState [] [] {["in.json" := text]} [])
            (mkState
               [["az"; "keyvault"; "secret"; "set"; "--vault-name"; "kv-test";
                 "--name"; "db-pass"; "--value"; "s3cret"; "--tags"]]
               [Echo "Pushing secrets to vault: kv-test";
                Echo "Secret db-pass pushed successfully"]
               {["in.json" := text]} [])
            _ _ _ _)).
  - reflexivity.
  - vm_compute. reflexivity.
  - vm_compute. reflexivity.
  - reflexivity.
Defined.

(** C9: when the records before a record have all been pushed and that
    record has the keys [name] and [value] and a [tags] key holding [null],
    [push_secrets] ends with an uncaught [AttributeError] in the state it
    had before the record: no malformed-record error is printed and no
    command is run for the record or for any later one. *)
Theorem push_raises_on_null_tags `{Platform}
    (vaultname filename text : string) (pre post : list json)
    (fields : list (string * json)) (s s1 : State) :
  files s !! filename = Some text ->
  json_loads text = Some (JArr (pre ++ JObj fields :: post)) ->
  push_loop vaultname pre (push_started vaultname s) = (Return tt, s1) ->
  dict_contains "name" fields = true ->
  dict_contains "value" fields = true ->
  dict_lookup "tags" fields = Some JNull ->
  push_secrets vaultname filename s = (Raise AttributeError, s1).
Proof.
  intros Hfile Hparse Hpre Hname Hvalue Htags.
  rewrite (push_secrets_enters_loop _ _ _ _ _ Hfile Hparse).
  rewrite (push_loop_app _ _ _ _ _ Hpre).
  apply push_loop_raises, push_secret_null_tags; assumption.
Qed.

Lemma push_raises_on_null_tags_witness :
  let P := platform (vault_tool (mkProc 0 "[]" "") [] []) no_env in
  let text := json_text "[{'name': 'db-pass', 'value': 's3cret', 'tags': {'env': 'prod'}}, {'name': 'plain', 'value': 'p', 'tags': null}, {'name': 'later', 'value': 'v'}]" in
  @push_secrets P "kv-test" "in.json" (mkState [] [] {["in.json" := text]} [])
  = (Raise AttributeError,
     mkState
       [["az"; "keyvault"; "secret"; "set"; "--vault-name"; "kv-test";
         "--name"; "db-pass"; "--value"; "s3cret"; "--tags"; "env=prod"]]
       [Echo "Pushing secrets to vault: kv-test";
        Echo "Secret db-pass pushed successfully"]
       {["in.json" := text]} []).
Proof.
  intros P text.
  refine (@push_raises_on_null_tags P "kv-test" "in.json" text
            [JObj [("name", JStr "db-pass"); ("value", JStr "s3cret");
                   ("tags", JObj [("env", JStr "prod")])]]
            [JObj [("name", JStr "later"); ("value", JStr "v")]]
            [("name", JStr "plain"); ("value", JStr "p"); ("tags", JNull)]
            (mkState [] [] {["in.json" := text]} [])
            _ _ _ _ _ _ _).
  - reflexivity.
  - vm_compute. reflexivity.
  - vm_compute. reflexivity.
  - reflexivity.
  - reflexivity.
  - reflexivity.
Defined.

(** ** Pull *)

Section Pull.
Context `{Platform}.


Lemma successes_app (a b : list CompletedProcess) :
  successes (a ++ b) = successes a ++ successes b.
Proof.
  induction a as [|r a IH]; simpl; [reflexivity|].
  destruct (fetched_record r); simpl; rewrite IH; reflexivity.
Qed.

Lemma pulled_app (pattern : option string) (a b : list CompletedProcess) :
  pulled pattern (a ++ b) = pulled pattern a ++ pulled pattern b.
Proof. unfold pulled. rewrite successes_app. apply List.filter_app. Qed.

Lemma record_name_fields (v : json) (n : string) :
  record_name v = Some n ->
  exists fields, v = JObj fields /\ dict_lookup "name" fields = Some (JStr n).
Proof.
  destruct v as [| | | |items|fields]; simpl; try discriminate.
  destruct (dict_lookup "name" fields) as [[| | |m| |]|] eqn:E;
    try discriminate.
  intros [= ->]. eauto.
Qed.

(** one iteration of the loop of [pull_secrets] *)
Lemma pull_secret_step (pattern : option string) (verbose : bool)
    (secrets : list json) (i : string) (s : State) :
  let r := az (calls s ++ [show_command i]) in
  fetch_in_contract r ->
  pull_secret pattern verbose secrets (JStr i) s
  = (Return (secrets ++ pulled pattern [r]),
     mkState (calls s ++ [show_command i])
             (console s ++ progress pattern verbose i r)
             (files s) (stdin s)).
Proof.
  intros r Hr. unfold pull_secret, bind.
  change [JStr "az"; JStr "keyvault"; JStr "secret"; JStr "show";
          JStr "--id"; JStr i; JStr "--query";
          JStr "{name: name, value: value, tags: tags}"; JStr "-o";
          JStr "json"] with (map JStr (show_command i)).
  rewrite subprocess_run_strings. fold r.
  unfold pulled, progress, fetched_record. simpl successes.
  unfold fetched_record.
  destruct (returncode r =? 0) eqn:Hrc.
  - apply Z.eqb_eq in Hrc. destruct (Hr Hrc) as (v & n & Hv & Hn).
    rewrite Hv. simpl List.filter. unfold selected. rewrite Hn.
    destruct (record_name_fields v n Hn) as (fields & -> & Hname).
    destruct (opt_truthy pattern) eqn:Hp.
    + cbn [getitem]. rewrite Hname. cbn [ret fnmatch_value].
      destruct (fnmatch n (default "" pattern)).
      * unfold echo_pulled, bind. destruct verbose.
        -- reflexivity.
        -- cbn [getitem]. rewrite Hname. reflexivity.
      * cbn. rewrite !app_nil_r. reflexivity.
    + unfold echo_pulled, bind. destruct verbose.
      * reflexivity.
      * cbn [getitem]. rewrite Hname. reflexivity.
  - cbn. rewrite app_nil_r. reflexivity.
Qed.

Lemma pull_loop_runs (pattern : option string) (verbose : bool)
    (ids : list string) (secrets : list json) (s : State) :
  Forall fetch_in_contract (show_results (calls s) ids) ->
  pull_loop pattern verbose (map JStr ids) secrets s
  = (Return (secrets ++ pulled pattern (show_results (calls s) ids)),
     mkState (calls s ++ map show_command ids)
             (console s
              ++ progress_lines pattern verbose ids
                   (show_results (calls s) ids))
             (files s) (stdin s)).
Proof.
  revert secrets s. induction ids as [|i ids IH]; intros secrets s Hall.
  - simpl. unfold ret, pulled. simpl. rewrite !app_nil_r.
    destruct s; reflexivity.
  - simpl in Hall. apply Forall_cons in Hall as [Hi Hall].
    simpl pull_loop. unfold bind.
    rewrite (pull_secret_step pattern verbose secrets i s Hi).
    rewrite IH by exact Hall. cbn [calls console files stdin].
    simpl show_results. simpl progress_lines. simpl map.
    change (az (calls s ++ [show_command i])
            :: show_results (calls s ++ [show_command i]) ids)
      with ([az (calls s ++ [show_command i])]
            ++ show_results (calls s ++ [show_command i]) ids).
    rewrite pulled_app, <- !app_assoc. reflexivity.
Qed.





End Pull.







(** ** Pull, then push *)

Section RoundTrip.
Context `{P : Platform} `{!JsonLaws P}.




End RoundTrip.


(** C7 (the code at the failing input): a vault holds a tagged secret and a
    secret without tags. Pulling everything writes both records, the second
    with [tags] null; pushing that file back sets the first secret and then
    ends with an uncaught [AttributeError]: one set command for two pulled
    secrets. *)
Theorem round_trip_breaks_on_untagged_secret :
  let P := platform untagged_vault no_env in
  let plain := JObj [("name", JStr "plain"); ("value", JStr "p");
                     ("tags", JNull)] in
  let pulled_state :=
    snd (@pull_secrets P "kv-test" [] "transfer.json" None false
           (mkState [] [] empty [])) in
  let pushed := @push_secrets P "kv-test" "transfer.json" pulled_state in
  files pulled_state !! "transfer.json"
  = Some (Ref.dumps 4 (JArr [db_pass; plain]))
  /\ fst pushed = Raise AttributeError
  /\ List.filter (fun cmd => String.eqb (nth 3 cmd "") "set")
                 (calls (snd pushed))
     = [["az"; "keyvault"; "secret"; "set"; "--vault-name"; "kv-test";
         "--name"; "db-pass"; "--value"; "s3cret"; "--tags"; "env=prod"]].
Proof. vm_compute. repeat split. Qed.

(** * Further properties of the program *)

(** ** Frame rules *)

Section Frames.
Context {A B : Type}.

Lemma preserves_bind (I : State -> State -> Prop)
    (Htrans : forall a b c, I a b -> I b c -> I a c)
    (m : M A) (k : A -> M B) :
  preserves I m -> (forall a, preserves I (k a)) -> preserves I (bind m k).
Proof.
  intros Hm Hk s. unfold bind. specialize (Hm s).
  destruct (m s) as [[a|c|e] s']; simpl in *; try exact Hm.
  apply (Htrans _ _ _ Hm), Hk.
Qed.

Lemma preserves_pure (I : State -> State -> Prop)
    (Hrefl : forall a, I a a) (m : M A) :
  (forall s, snd (m s) = s) -> preserves I m.
Proof. intros Hm s. rewrite Hm. apply Hrefl. Qed.

End Frames.

Lemma same_files_trans (a b c : State) :
  same_files a b -> same_files b c -> same_files a c.
Proof. unfold same_files. congruence. Qed.

Lemma same_stdin_trans (a b c : State) :
  same_stdin a b -> same_stdin b c -> same_stdin a c.
Proof. unfold same_stdin. congruence. Qed.

Lemma ran_only_refl (allowed : list string -> Prop) (a : State) :
  ran_only allowed a a.
Proof. exists []. rewrite app_nil_r. auto. Qed.

Lemma ran_only_trans (allowed : list string -> Prop) (a b c : State) :
  ran_only allowed a b -> ran_only allowed b c -> ran_only allowed a c.
Proof.
  intros (n1 & E1 & F1) (n2 & E2 & F2). exists (n1 ++ n2).
  rewrite E2, E1, app_assoc. split; [reflexivity|].
  apply Forall_app. auto.
Qed.

Lemma ran_only_weaken (P Q : list string -> Prop) (a b : State) :
  (forall cmd, P cmd -> Q cmd) -> ran_only P a b -> ran_only Q a b.
Proof.
  intros HPQ (new & E & F). exists new. split; [exact E|].
  eapply Forall_impl; eauto.
Qed.

(** the pure steps change nothing *)
Lemma getitem_pure (v : json) (k : string) (s : State) :
  snd (getitem v k s) = s.
Proof.
  destruct v as [| | | | |fields]; try reflexivity.
  simpl. destruct (dict_lookup k fields); reflexivity.
Qed.

Lemma py_items_pure (v : json) (s : State) : snd (py_items v s) = s.
Proof. destruct v; reflexivity. Qed.

Lemma py_iter_pure (v : json) (s : State) : snd (py_iter v s) = s.
Proof. destruct v; reflexivity. Qed.

Lemma json_load_file_pure `{Platform} (filename : string) (s : State) :
  snd (json_load_file filename s) = s.
Proof.
  unfold json_load_file. destruct (files s !! filename) as [text|];
    [destruct (json_loads text)|]; reflexivity.
Qed.

Lemma subprocess_run_calls `{Platform} (args : list json) (s : State) :
  snd (subprocess_run args s) = s
  \/ exists cmd, argv args = Return cmd
                 /\ snd (subprocess_run args s)
                    = mkState (calls s ++ [cmd]) (console s) (files s) (stdin s).
Proof.
  unfold subprocess_run. destruct (argv args) as [cmd|c|e]; eauto.
Qed.

(** ** Push: what it never does *)

Section PushFrame.
Context `{Platform}.

Lemma push_frame_refl (vaultname : string) (s : State) :
  push_frame vaultname s s.
Proof. repeat split. apply ran_only_refl. Qed.

Lemma push_frame_trans (vaultname : string) (a b c : State) :
  push_frame vaultname a b -> push_frame vaultname b c ->
  push_frame vaultname a c.
Proof.
  intros (F1 & I1 & R1) (F2 & I2 & R2). repeat split.
  - eapply same_files_trans; eauto.
  - eapply same_stdin_trans; eauto.
  - eapply ran_only_trans; eauto.
Qed.

Lemma push_frame_console (vaultname : string) (s : State)
    (lines : list shown) :
  push_frame vaultname s
    (mkState (calls s) (console s ++ lines) (files s) (stdin s)).
Proof.
  repeat split. exists []. simpl. rewrite app_nil_r. auto.
Qed.

Lemma push_frame_set (vaultname name value : string)
    (tags : list (string * json)) (s : State) (lines : list shown) :
  push_frame vaultname s
    (mkState (calls s ++ [set_command vaultname name value tags])
             (console s ++ lines) (files s) (stdin s)).
Proof.
  repeat split. exists [set_command vaultname name value tags].
  split; [reflexivity|]. apply Forall_cons. split; [|apply Forall_nil_2].
  exists name, value, tags. reflexivity.
Qed.

Lemma set_argv (vaultname name value : string) (tags : list (string * json)) :
  argv ([JStr "az"; JStr "keyvault"; JStr "secret"; JStr "set";
         JStr "--vault-name"; JStr vaultname; JStr "--name"; JStr name;
         JStr "--value"; JStr value; JStr "--tags"]
        ++ map (fun kv => JStr (fst kv +:+ "=" +:+ py_str (snd kv))) tags)
  = Return (set_command vaultname name value tags).
Proof.
  change [JStr "az"; JStr "keyvault"; JStr "secret"; JStr "set";
          JStr "--vault-name"; JStr vaultname; JStr "--name"; JStr name;
          JStr "--value"; JStr value; JStr "--tags"]
    with (map JStr ["az"; "keyvault"; "secret"; "set"; "--vault-name";
                    vaultname; "--name"; name; "--value"; value; "--tags"]).
  rewrite argv_app.
  rewrite <- (map_map (fun kv => fst kv +:+ "=" +:+ py_str (snd kv)) JStr).
  rewrite argv_strings. reflexivity.
Qed.

Lemma push_secret_frame (vaultname : string) (r : json) :
  preserves (push_frame vaultname) (push_secret vaultname r).
Proof.
  intros s. unfold push_secret.
  destruct r as [| | | |items|fields];
    try (apply (push_frame_console vaultname s [_])).
  destruct (dict_contains "name" fields && dict_contains "value" fields);
    [|apply (push_frame_console vaultname s [_])].
  unfold bind, getitem.
  destruct (dict_lookup "name" fields) as [name|]; [|apply push_frame_refl].
  destruct (dict_lookup "value" fields) as [value|]; [|apply push_frame_refl].
  cbn [ret].
  destruct (dict_get "tags" (JObj []) fields) as [| | | | |tags];
    try apply push_frame_refl.
  cbn [py_items ret]. unfold subprocess_run.
  destruct name as [| | |name| |]; try apply push_frame_refl.
  destruct value as [| | |value| |]; try apply push_frame_refl.
  rewrite set_argv.
  destruct (negb (returncode _ =? 0)); apply (push_frame_set _ _ _ _ s [_]).
Qed.

Lemma push_loop_frame (vaultname : string) (records : list json) :
  preserves (push_frame vaultname) (push_loop vaultname records).
Proof.
  induction records as [|r records IH].
  - intros s. apply push_frame_refl.
  - apply preserves_bind.
    + apply push_frame_trans.
    + apply push_secret_frame.
    + intros _. exact IH.
Qed.

Lemma push_secrets_frame (vaultname filename : string) :
  preserves (push_frame vaultname) (push_secrets vaultname filename).
Proof.
  unfold push_secrets.
  apply preserves_bind; [apply push_frame_trans | |intros _].
  { intros s0. apply (push_frame_console vaultname s0 [_]). }
  apply preserves_bind; [apply push_frame_trans | |intros doc].
  { apply preserves_pure; [apply push_frame_refl|].
    apply json_load_file_pure. }
  apply preserves_bind; [apply push_frame_trans | |intros records].
  { apply preserves_pure; [apply push_frame_refl|]. apply py_iter_pure. }
  apply push_loop_frame.
Qed.

End PushFrame.

(** X1: whatever the transfer file holds and whatever the tool answers,
    and however the run ends, [push_secrets] leaves every file as it was,
    reads no input, and runs nothing but set commands on the given vault. *)
Theorem push_only_sets_secrets `{Platform} (vaultname filename : string)
    (s : State) :
  let s' := snd (push_secrets vaultname filename s) in
  files s' = files s
  /\ stdin s' = stdin s
  /\ exists new,
       calls s' = calls s ++ new
       /\ Forall (fun cmd => exists name value tags,
                     cmd = set_command vaultname name value tags) new.
Proof.
  exact (push_secrets_frame vaultname filename s).
Qed.

(** ** Pull: what it never does *)

Section PullFrame.
Context `{Platform}.
Variables (vaultname : string) (tags : list (string * string)).

Lemma pull_frame_refl (s : State) : pull_frame vaultname tags s s.
Proof. repeat split. apply ran_only_refl. Qed.

Lemma pull_frame_trans (a b c : State) :
  pull_frame vaultname tags a b -> pull_frame vaultname tags b c ->
  pull_frame vaultname tags a c.
Proof.
  intros (F1 & I1 & R1) (F2 & I2 & R2). repeat split.
  - eapply same_files_trans; eauto.
  - eapply same_stdin_trans; eauto.
  - eapply ran_only_trans; eauto.
Qed.

Lemma pull_frame_show (i : string) (s : State) (shown' : list shown) :
  pull_frame vaultname tags s
    (mkState (calls s ++ [show_command i]) shown' (files s) (stdin s)).
Proof.
  repeat split. exists [show_command i]. split; [reflexivity|].
  apply Forall_cons. split; [|apply Forall_nil_2]. right. eauto.
Qed.

Lemma pull_frame_list (s : State) (shown' : list shown) :
  pull_frame vaultname tags s
    (mkState (calls s ++ [list_command vaultname tags]) shown' (files s)
             (stdin s)).
Proof.
  repeat split. exists [list_command vaultname tags]. split; [reflexivity|].
  apply Forall_cons. split; [|apply Forall_nil_2]. left. reflexivity.
Qed.

Lemma pull_secret_frame (pattern : option string) (verbose : bool)
    (secrets : list json) (secret_id : json) :
  preserves (pull_frame vaultname tags)
            (pull_secret pattern verbose secrets secret_id).
Proof.
  intros s. unfold pull_secret, bind, subprocess_run.
  destruct secret_id as [| | |i| |]; try apply pull_frame_refl.
  change (argv _) with (argv (map JStr (show_command i))).
  rewrite argv_strings.
  destruct (returncode _ =? 0); [|apply (pull_frame_show i s)].
  destruct (json_loads _) as [secret|]; [|apply (pull_frame_show i s)].
  unfold echo_pulled, bind, fnmatch_value, getitem, click_echo, ret, raise.
  destruct (opt_truthy pattern), verbose, secret as [| | | | |fields];
    try apply (pull_frame_show i s);
    cbn [calls console files stdin];
    destruct (dict_lookup "name" fields) as [[| | |n| |]|];
    try apply (pull_frame_show i s);
    destruct (fnmatch n (default "" pattern)); apply (pull_frame_show i s).
Qed.

Lemma pull_loop_frame (pattern : option string) (verbose : bool)
    (ids secrets : list json) :
  preserves (pull_frame vaultname tags)
            (pull_loop pattern verbose ids secrets).
Proof.
  revert secrets. induction ids as [|i ids IH]; intros secrets.
  - intros s. apply pull_frame_refl.
  - apply preserves_bind.
    + apply pull_frame_trans.
    + apply pull_secret_frame.
    + intros secrets'. apply IH.
Qed.

(** the part of [pull_secrets] before the file is written *)
Lemma pull_secrets_cases (filename : string) (pattern : option string)
    (verbose : bool) (s : State) :
  let run := pull_secrets vaultname tags filename pattern verbose s in
  (fst run <> Return tt /\ pull_frame vaultname tags s (snd run))
  \/ exists records s1,
       pull_frame vaultname tags s s1
       /\ run = (Return tt,
                 mkState (calls s1)
                   (console s1 ++ [Echo ("Secrets saved to " +:+ filename)])
                   (<[filename := json_dumps 4 (JArr records)]> (files s1))
                   (stdin s1)).
Proof.
  unfold pull_secrets, bind, click_echo.
  rewrite subprocess_run_strings. cbn [calls console files stdin].
  set (s0 := mkState (calls s ++ [list_command vaultname tags])
               (console s
                ++ [Echo ("Pulling secrets from vault: " +:+ vaultname)])
               (files s) (stdin s)).
  assert (pull_frame vaultname tags s s0) as H0
    by apply (pull_frame_list s).
  destruct (negb (returncode _ =? 0)).
  { left. split; [discriminate|]. apply (pull_frame_list s). }
  cbn [ret]. destruct (json_loads _) as [doc|];
    [|left; split; [discriminate | exact H0]].
  pose proof (py_iter_pure doc s0) as Hiter.
  destruct (py_iter doc s0) as [[ids|c|e] s0'] eqn:Eiter; simpl in Hiter;
    subst s0'; try (left; split; [discriminate | exact H0]).
  pose proof (pull_loop_frame pattern verbose ids [] s0) as Hloop.
  destruct (pull_loop pattern verbose ids [] s0) as [[records|c|e] s1];
    simpl in Hloop;
    try (left; split; [discriminate | eapply pull_frame_trans; eauto]).
  right. exists records, s1. split; [eapply pull_frame_trans; eauto|].
  reflexivity.
Qed.

End PullFrame.

(** X2: whatever the tool answers and however the run ends, [pull_secrets]
    reads no input and runs nothing but the listing command and fetch
    commands: it never sets a secret. *)
Theorem pull_only_lists_and_fetches `{Platform}
    (vaultname : string) (tags : list (string * string)) (filename : string)
    (pattern : option string) (verbose : bool) (s : State) :
  let s' := snd (pull_secrets vaultname tags filename pattern verbose s) in
  stdin s' = stdin s
  /\ exists new,
       calls s' = calls s ++ new
       /\ Forall (fun cmd => cmd = list_command vaultname tags
                             \/ exists i, cmd = show_command i) new.
Proof.
  destruct (pull_secrets_cases vaultname tags filename pattern verbose s)
    as [[_ (_ & Hin & Hran)] | (records & s1 & (_ & Hin & Hran) & ->)];
    cbn; auto.
Qed.


(** ** Push: the whole file, and its edge cases *)

Section PushRuns.
Context `{Platform}.




End PushRuns.



(** X5: [push_secrets] fails fast on a transfer file it cannot read: when
    the file does not exist it ends with [FileNotFoundError], and when its
    text is not JSON it ends with [JSONDecodeError]; in both cases only the
    header line has been printed and no command has been run. *)
Theorem push_needs_readable_file `{Platform}
    (vaultname filename : string) (s : State) :
  (files s !! filename = None
   \/ exists text, files s !! filename = Some text /\ json_loads text = None) ->
  exists e,
    push_secrets vaultname filename s = (Raise e, push_started vaultname s)
    /\ (files s !! filename = None -> e = FileNotFoundError)
    /\ (files s !! filename <> None -> e = JSONDecodeError).
Proof.
  unfold push_secrets, bind, click_echo, json_load_file, push_started.
  cbn [files]. intros [Hnone | (text & Hfile & Hparse)].
  - exists FileNotFoundError. rewrite Hnone. repeat split; congruence.
  - exists JSONDecodeError. rewrite Hfile, Hparse. repeat split; congruence.
Qed.

Lemma push_needs_readable_file_witness :
  @push_secrets (platform (vault_tool (mkProc 0 "[]" "") [] []) no_env)
     "kv-test" "in.json" (mkState [] [] {["in.json" := "[{'name': "]} [])
  = (Raise JSONDecodeError,
     mkState [] [Echo "Pushing secrets to vault: kv-test"]
             {["in.json" := "[{'name': "]} []).
Proof.
  destruct (@push_needs_readable_file
              (platform (vault_tool (mkProc 0 "[]" "") [] []) no_env)
              "kv-test" "in.json"
              (mkState [] [] {["in.json" := "[{'name': "]} []))
    as (e & Hrun & _ & He).
  - right. exists "[{'name': ". split; reflexivity.
  - rewrite Hrun, He; [reflexivity | discriminate].
Defined.

(** X6: a transfer file whose document is not an array. A number, a boolean
    or null cannot be iterated: [TypeError]. An object is iterated by its
    keys and a string by its characters, none of which is a record, so a
    non-empty one ends on the malformed-record error with exit code 1; an
    empty object, string or array gives a run that sets nothing. In every
    case no command is run. *)
Theorem push_of_document_that_is_no_array `{Platform}
    (vaultname filename text : string) (doc : json) (s : State) :
  files s !! filename = Some text ->
  json_loads text = Some doc ->
  let s0 := push_started vaultname s in
  let malformed :=
    (Exit 1,
     mkState (calls s0)
       (console s0 ++ [Echo "Error: Each secret must have 'name' and 'value' fields."])
       (files s0) (stdin s0)) in
  match doc with
  | JNull | JBool _ | JInt _ =>
      push_secrets vaultname filename s = (Raise TypeError, s0)
  | JObj [] | JStr EmptyString | JArr [] =>
      push_secrets vaultname filename s = (Return tt, s0)
  | JObj (_ :: _) | JStr (String _ _) =>
      push_secrets vaultname filename s = malformed
  | JArr (_ :: _) => True
  end.
Proof.
  intros Hfile Hparse s0 malformed.
  unfold push_secrets, bind, click_echo, json_load_file.
  cbn [files]. rewrite Hfile, Hparse.
  destruct doc as [|b|n|[|c t]|[|x xs]|[|[k v] kvs]]; try reflexivity; exact I.
Qed.

Lemma push_of_document_that_is_no_array_witness :
  let P := platform (vault_tool (mkProc 0 "[]" "") [] []) no_env in
  let text := json_text "{'name': 'db-pass', 'value': 's3cret'}" in
  @push_secrets P "kv-test" "in.json" (mkState [] [] {["in.json" := text]} [])
  = (Exit 1,
     mkState []
       [Echo "Pushing secrets to vault: kv-test";
        Echo "Error: Each secret must have 'name' and 'value' fields."]
       {["in.json" := text]} []).
Proof.
  intros P text.
  exact (@push_of_document_that_is_no_array P "kv-test" "in.json" text
           (JObj [("name", JStr "db-pass"); ("value", JStr "s3cret")])
           (mkState [] [] {["in.json" := text]} []) eq_refl eq_refl).
Defined.

Section PushTypes.
Context `{Platform}.

Lemma push_secret_not_strings (vaultname : string)
    (fields tags : list (string * json)) (name value : json) (s : State) :
  dict_lookup "name" fields = Some name ->
  dict_lookup "value" fields = Some value ->
  dict_get "tags" (JObj []) fields = JObj tags ->
  (forall n, name <> JStr n) \/ (forall x, value <> JStr x) ->
  push_secret vaultname (JObj fields) s = (Raise TypeError, s).
Proof.
  intros Hname Hvalue Htags Hbad. unfold push_secret.
  rewrite (dict_contains_lookup _ _ _ Hname), (dict_contains_lookup _ _ _ Hvalue).
  cbn [andb]. unfold bind, getitem. rewrite Hname, Hvalue, Htags.
  cbn [ret py_items]. unfold subprocess_run.
  destruct name as [| | |n| |]; try reflexivity.
  destruct value as [| | |x| |]; try reflexivity.
  destruct Hbad as [Hbad|Hbad]; [destruct (Hbad n) | destruct (Hbad x)];
    reflexivity.
Qed.

Lemma push_secret_tags_no_object (vaultname : string)
    (fields : list (string * json)) (tags : json) (s : State) :
  dict_contains "name" fields = true ->
  dict_contains "value" fields = true ->
  dict_lookup "tags" fields = Some tags ->
  (forall items, tags <> JObj items) ->
  push_secret vaultname (JObj fields) s = (Raise AttributeError, s).
Proof.
  intros Hname Hvalue Htags Hbad. unfold push_secret. rewrite Hname, Hvalue.
  cbn [andb]. unfold dict_contains in Hname, Hvalue.
  unfold bind, getitem, dict_get. rewrite Htags.
  destruct (dict_lookup "name" fields); [|discriminate].
  destruct (dict_lookup "value" fields); [|discriminate].
  destruct tags as [| | | | |items]; try reflexivity.
  destruct (Hbad items). reflexivity.
Qed.

End PushTypes.

(** X7: a record passes the validation of [push_secrets] as soon as it has
    the keys [name] and [value], but when one of the two is not a string
    (a number, null, a list) the set command cannot be built: the run ends
    with an uncaught [TypeError] in the state it had before the record,
    with no command run for it or for any later record. *)
Theorem push_raises_on_name_or_value_that_is_no_string `{Platform}
    (vaultname filename text : string) (pre post : list json)
    (fields tags : list (string * json)) (name value : json)
    (s s1 : State) :
  files s !! filename = Some text ->
  json_loads text = Some (JArr (pre ++ JObj fields :: post)) ->
  push_loop vaultname pre (push_started vaultname s) = (Return tt, s1) ->
  dict_lookup "name" fields = Some name ->
  dict_lookup "value" fields = Some value ->
  dict_get "tags" (JObj []) fields = JObj tags ->
  (forall n, name <> JStr n) \/ (forall x, value <> JStr x) ->
  push_secrets vaultname filename s = (Raise TypeError, s1).
Proof.
  intros Hfile Hparse Hpre Hname Hvalue Htags Hbad.
  rewrite (push_secrets_enters_loop _ _ _ _ _ Hfile Hparse).
  rewrite (push_loop_app _ _ _ _ _ Hpre).
  eapply push_loop_raises, push_secret_not_strings; eassumption.
Qed.

Lemma push_raises_on_name_or_value_that_is_no_string_witness :
  let P := platform (vault_tool (mkProc 0 "[]" "") [] []) no_env in
  let text := json_text "[{'name': 'port', 'value': 8080}, {'name': 'later', 'value': 'v'}]" in
  @push_secrets P "kv-test" "in.json" (mkState [] [] {["in.json" := text]} [])
  = (Raise TypeError,
     mkState [] [Echo "Pushing secrets to vault: kv-test"]
             {["in.json" := text]} []).
Proof.
  intros P text.
  refine (@push_raises_on_name_or_value_that_is_no_string P
            "kv-test" "in.json" text []
            [JObj [("name", JStr "later"); ("value", JStr "v")]]
            [("name", JStr "port"); ("value", JInt 8080)] []
            (JStr "port") (JInt 8080)
            (mkState [] [] {["in.json" := text]} []) _ _ _ _ _ _ _ _).
  - reflexivity.
  - vm_compute. reflexivity.
  - reflexivity.
  - reflexivity.
  - reflexivity.
  - reflexivity.
  - right. discriminate.
Defined.

(** X8: tags that are present but are not an object (a list, a string, a
    number, null) make [push_secrets] end with an uncaught
    [AttributeError] when it reaches the record, in the state it had
    before the record: the validation does not look at the tags. *)
Theorem push_raises_on_tags_that_are_no_object `{Platform}
    (vaultname filename text : string) (pre post : list json)
    (fields : list (string * json)) (tags : json) (s s1 : State) :
  files s !! filename = Some text ->
  json_loads text = Some (JArr (pre ++ JObj fields :: post)) ->
  push_loop vaultname pre (push_started vaultname s) = (Return tt, s1) ->
  dict_contains "name" fields = true ->
  dict_contains "value" fields = true ->
  dict_lookup "tags" fields = Some tags ->
  (forall items, tags <> JObj items) ->
  push_secrets vaultname filename s = (Raise AttributeError, s1).
Proof.
  intros Hfile Hparse Hpre Hname Hvalue Htags Hbad.
  rewrite (push_secrets_enters_loop _ _ _ _ _ Hfile Hparse).
  rewrite (push_loop_app _ _ _ _ _ Hpre).
  eapply push_loop_raises, push_secret_tags_no_object; eassumption.
Qed.

Lemma push_raises_on_tags_that_are_no_object_witness :
  let P := platform (vault_tool (mkProc 0 "[]" "") [] []) no_env in
  let text := json_text "[{'name': 'db-pass', 'value': 's3cret', 'tags': ['prod']}]" in
  @push_secrets P "kv-test" "in.json" (mkState [] [] {["in.json" := text]} [])
  = (Raise AttributeError,
     mkState [] [Echo "Pushing secrets to vault: kv-test"]
             {["in.json" := text]} []).
Proof.
  intros P text.
  refine (@push_raises_on_tags_that_are_no_object P
            "kv-test" "in.json" text [] []
            [("name", JStr "db-pass"); ("value", JStr "s3cret");
             ("tags", JArr [JStr "prod"])]
            (JArr [JStr "prod"])
            (mkState [] [] {["in.json" := text]} []) _ _ _ _ _ _ _ _).
  - reflexivity.
  - vm_compute. reflexivity.
  - reflexivity.
  - reflexivity.
  - reflexivity.
  - reflexivity.
  - discriminate.
Defined.

(** ** The session and the confirmation in [main] *)

Section Session.
Context `{Platform}.

Lemma session_frame_refl (s : State) : session_frame s s.
Proof. repeat split. apply ran_only_refl. Qed.

Lemma session_frame_trans (a b c : State) :
  session_frame a b -> session_frame b c -> session_frame a c.
Proof.
  intros (F1 & I1 & R1) (F2 & I2 & R2). repeat split.
  - eapply same_files_trans; eauto.
  - eapply same_stdin_trans; eauto.
  - eapply ran_only_trans; eauto.
Qed.

Lemma session_frame_console (s : State) (lines : list shown) :
  session_frame s (mkState (calls s) (console s ++ lines) (files s) (stdin s)).
Proof. repeat split. exists []. simpl. rewrite app_nil_r. auto. Qed.

Lemma session_frame_run (cmd : list string) (s : State) :
  is_session_command cmd ->
  session_frame s (mkState (calls s ++ [cmd]) (console s) (files s) (stdin s)).
Proof.
  intros Hcmd. repeat split. exists [cmd]. split; [reflexivity|].
  apply Forall_cons. split; [exact Hcmd | apply Forall_nil_2].
Qed.

Lemma click_echo_session (line : string) :
  preserves session_frame (click_echo line).
Proof. intros s. apply (session_frame_console s [_]). Qed.

Lemma run_session (cmd : list string) :
  is_session_command cmd ->
  preserves session_frame (subprocess_run (map JStr cmd)).
Proof.
  intros Hcmd s. rewrite subprocess_run_strings.
  apply session_frame_run, Hcmd.
Qed.

Lemma azure_login_check_frame : preserves session_frame azure_login_check.
Proof.
  unfold azure_login_check.
  apply preserves_bind; [apply session_frame_trans | |intros r1].
  { apply run_session. left. reflexivity. }
  destruct (returncode r1 =? 0); [intros s; apply session_frame_refl|].
  apply preserves_bind; [apply session_frame_trans | |intros _].
  { apply click_echo_session. }
  apply preserves_bind; [apply session_frame_trans | |intros r2].
  { apply run_session. right. left. reflexivity. }
  destruct (returncode r2 =? 0); [apply click_echo_session|].
  apply preserves_bind; [apply session_frame_trans | |intros _].
  { apply click_echo_session. }
  intros s. apply session_frame_refl.
Qed.

Lemma switch_subscription_frame (subscription_id : option string) :
  preserves session_frame (switch_subscription subscription_id).
Proof.
  unfold switch_subscription.
  destruct subscription_id as [id|]; [|intros s; apply session_frame_refl].
  destruct (str_truthy id); [|intros s; apply session_frame_refl].
  apply preserves_bind; [apply session_frame_trans | |intros _].
  { apply click_echo_session. }
  apply preserves_bind; [apply session_frame_trans | |intros r].
  { apply run_session. right. right. eauto. }
  destruct (returncode r =? 0); [apply click_echo_session|].
  apply preserves_bind; [apply session_frame_trans | |intros _].
  { apply click_echo_session. }
  apply preserves_bind; [apply session_frame_trans | |intros _].
  { apply click_echo_session. }
  intros s. apply session_frame_refl.
Qed.

(** the steps of [main_setup], one after the other *)
Lemma main_setup_steps (args : Args) (s : State) :
  let subscription_id :=
    py_or (arg_subscription args) (getenv "AZURE_SUBSCRIPTION_ID") in
  let vaultname :=
    py_or (arg_vaultname args) (getenv "AZURE_KEYVAULT_NAME") in
  opt_truthy subscription_id = true ->
  opt_truthy vaultname = true ->
  main_setup args s
  = match azure_login_check s with
    | (Return _, s1) =>
        match switch_subscription subscription_id s1 with
        | (Return _, s2) =>
            let shown' :=
              console s2
              ++ [confirm_prompt (action_of (arg_direction args))
                                 (default "" vaultname)] in
            match stdin s2 with
            | [] =>
                (Raise EOFError,
                 mkState (calls s2) shown' (files s2) (stdin s2))
            | line :: rest =>
                if accepted line then
                  (Return (default "" vaultname),
                   mkState (calls s2) shown' (files s2) rest)
                else
                  (Exit 0,
                   mkState (calls s2)
                     (shown' ++ [Echo "Operation cancelled."])
                     (files s2) rest)
            end
        | (Exit c, s2) => (Exit c, s2)
        | (Raise e, s2) => (Raise e, s2)
        end
    | (Exit c, s1) => (Exit c, s1)
    | (Raise e, s1) => (Raise e, s1)
    end.
Proof.
  intros subscription_id vaultname Hsub Hvault.
  unfold main_setup. fold subscription_id. fold vaultname.
  rewrite Hsub, Hvault. cbn [negb]. unfold bind at 1 2. cbn [ret].
  unfold bind at 1.
  destruct (azure_login_check s) as [[[]|c|e] s1]; try reflexivity.
  unfold bind at 1.
  destruct (switch_subscription subscription_id s1) as [[[]|c|e] s2];
    try reflexivity.
  unfold confirm_action, accepted, confirm_prompt, action_of.
  unfold bind, input, ret. cbv beta.
  destruct (stdin s2) as [|line rest]; [reflexivity|].
  cbn [calls console files stdin].
  destruct (String.eqb (lower (strip line)) "y"); reflexivity.
Qed.

Lemma main_setup_frame (args : Args) (s : State) :
  let s' := snd (main_setup args s) in
  same_files s s' /\ ran_only is_session_command s s'
  /\ (stdin s' = stdin s \/ exists line, stdin s = line :: stdin s').
Proof.
  destruct (opt_truthy (py_or (arg_subscription args)
                              (getenv "AZURE_SUBSCRIPTION_ID"))) eqn:Hsub.
  2:{ unfold main_setup, bind. rewrite Hsub. cbn.
      repeat split; auto. exists []. rewrite app_nil_r. auto. }
  destruct (opt_truthy (py_or (arg_vaultname args)
                              (getenv "AZURE_KEYVAULT_NAME"))) eqn:Hvault.
  2:{ unfold main_setup, bind. rewrite Hsub, Hvault. cbn.
      repeat split; auto. exists []. rewrite app_nil_r. auto. }
  rewrite (main_setup_steps args s Hsub Hvault).
  pose proof (azure_login_check_frame s) as (F1 & I1 & R1).
  destruct (azure_login_check s) as [[[]|c|e] s1]; simpl in *; auto.
  pose proof (switch_subscription_frame
                (py_or (arg_subscription args)
                       (getenv "AZURE_SUBSCRIPTION_ID")) s1) as (F2 & I2 & R2).
  destruct (switch_subscription _ s1) as [[[]|c|e] s2]; simpl in *.
  - assert (same_files s s2) as F by (unfold same_files in *; congruence).
    assert (ran_only is_session_command s s2) as R
      by (eapply ran_only_trans; eauto).
    assert (stdin s2 = stdin s) as I
      by (unfold same_stdin in *; congruence).
    destruct (stdin s2) as [|line rest] eqn:Hin; simpl.
    + repeat split; auto; congruence.
    + destruct (accepted line); simpl; (split; [exact F|]);
        (split; [exact R|]); right; exists line; congruence.
  - repeat split; [unfold same_files in *; congruence | |
                   left; unfold same_stdin in *; congruence].
    eapply ran_only_trans; eauto.
  - repeat split; [unfold same_files in *; congruence | |
                   left; unfold same_stdin in *; congruence].
    eapply ran_only_trans; eauto.
Qed.

(** when [main_setup] returns, the line it read was a yes *)
Lemma main_setup_returns (args : Args) (s s' : State) (vaultname : string) :
  main_setup args s = (Return vaultname, s') ->
  (exists line, stdin s = line :: stdin s' /\ accepted line = true)
  /\ Some vaultname
     = py_or (arg_vaultname args) (getenv "AZURE_KEYVAULT_NAME")
  /\ str_truthy vaultname = true
  /\ opt_truthy (py_or (arg_subscription args)
                       (getenv "AZURE_SUBSCRIPTION_ID")) = true.
Proof.
  destruct (opt_truthy (py_or (arg_subscription args)
                              (getenv "AZURE_SUBSCRIPTION_ID"))) eqn:Hsub.
  2:{ unfold main_setup, bind. rewrite Hsub. cbn. discriminate. }
  destruct (opt_truthy (py_or (arg_vaultname args)
                              (getenv "AZURE_KEYVAULT_NAME"))) eqn:Hvault.
  2:{ unfold main_setup, bind. rewrite Hsub, Hvault. cbn. discriminate. }
  rewrite (main_setup_steps args s Hsub Hvault).
  pose proof (azure_login_check_frame s) as (_ & I1 & _).
  destruct (azure_login_check s) as [[[]|c|e] s1]; try discriminate.
  pose proof (switch_subscription_frame
                (py_or (arg_subscription args)
                       (getenv "AZURE_SUBSCRIPTION_ID")) s1) as (_ & I2 & _).
  destruct (switch_subscription _ s1) as [[[]|c|e] s2]; try discriminate.
  simpl in I1, I2. unfold same_stdin in *.
  destruct (stdin s2) as [|line rest] eqn:Hin; [discriminate|].
  destruct (accepted line) eqn:Hacc; [|discriminate].
  intros [= <- <-]. cbn [stdin].
  destruct (py_or (arg_vaultname args) (getenv "AZURE_KEYVAULT_NAME"))
    as [v|]; [|discriminate Hvault].
  repeat split; auto. exists line. split; [congruence | exact Hacc].
Qed.

End Session.

(** X9: with a subscription ID but no vault name from the flag or from the
    environment, [main] prints the error and exits with code 1; no command
    has been run, no input read and no file touched. *)
Theorem main_requires_vault_name `{Platform} (args : Args) (s : State) :
  opt_truthy (py_or (arg_subscription args) (getenv "AZURE_SUBSCRIPTION_ID"))
  = true ->
  opt_truthy (arg_vaultname args) = false ->
  opt_truthy (getenv "AZURE_KEYVAULT_NAME") = false ->
  main args s
  = (Exit 1,
     mkState (calls s)
       (console s ++ [Echo "Error: No vault name provided. Set the AZURE_KEYVAULT_NAME environment variable or use the --vaultname flag."])
       (files s) (stdin s)).
Proof.
  intros Hsub Hflag Henv. unfold main, main_setup, bind.
  rewrite Hsub. unfold py_or. rewrite Hflag, Henv. reflexivity.
Qed.

Lemma main_requires_vault_name_witness :
  @main (platform (fun _ => mkProc 0 "[]" "") no_env)
        (mkArgs Push None "in.json" None None false (Some "sub-1"))
        (mkState [] [] empty ["y"])
  = (Exit 1,
     mkState []
       [Echo "Error: No vault name provided. Set the AZURE_KEYVAULT_NAME environment variable or use the --vaultname flag."]
       empty ["y"]).
Proof.
  exact (@main_requires_vault_name
           (platform (fun _ => mkProc 0 "[]" "") no_env)
           (mkArgs Push None "in.json" None None false (Some "sub-1"))
           (mkState [] [] empty ["y"]) eq_refl eq_refl eq_refl).
Defined.

Section MainFrame.
Context `{Platform}.

Lemma session_command_no_vault (cmd : list string) :
  is_session_command cmd -> ~ is_vault_command cmd.
Proof.
  unfold is_vault_command. intros [-> | [-> | (id & ->)]]; discriminate.
Qed.

Lemma main_dispatch_extends (args : Args) (vaultname : string) (s : State) :
  exists new, calls (snd (main_dispatch args vaultname s)) = calls s ++ new.
Proof.
  unfold main_dispatch. destruct (arg_direction args).
  - destruct (push_secrets_frame vaultname (arg_filename args) s)
      as (_ & _ & new & E & _). eauto.
  - unfold bind, lift. destruct (tag_dict_of (arg_tags args)) as [tags|c|e];
      try (exists []; simpl; rewrite app_nil_r; reflexivity).
    destruct (pull_secrets_cases vaultname tags (arg_filename args)
                (arg_name args) (arg_verbose args) s)
      as [[_ (_ & _ & new & E & _)]
         | (records & s1 & (_ & _ & new & E & _) & ->)]; eauto.
Qed.

End MainFrame.

(** X10: [main] touches the vault and the files only after a yes. Whatever
    the arguments, the environment and the tool's answers, the commands run
    by [main] extend the history, and if one of them is a vault command, or
    if a file has changed, then the first pending input line was an
    accepted confirmation. *)
Theorem main_acts_only_after_yes `{Platform} (args : Args) (s : State) :
  let s' := snd (main args s) in
  exists new,
    calls s' = calls s ++ new
    /\ (Exists is_vault_command new \/ files s' <> files s ->
        exists line rest, stdin s = line :: rest /\ accepted line = true).
Proof.
  unfold main, bind.
  pose proof (main_setup_frame args s) as (F & (new1 & E1 & R1) & _).
  destruct (main_setup args s) as [[vaultname|c|e] s1] eqn:Hsetup;
    simpl in F, E1.
  - destruct (main_dispatch_extends args vaultname s1) as (new2 & E2).
    exists (new1 ++ new2). split.
    + rewrite E2, E1, app_assoc. reflexivity.
    + intros _.
      destruct (main_setup_returns args s s1 vaultname Hsetup)
        as ((line & Hin & Hacc) & _).
      eauto.
  - exists new1. simpl. split; [exact E1|].
    intros [Hex | Hfiles]; [|contradiction].
    apply Exists_exists in Hex as (cmd & Hin & Hv).
    rewrite Forall_forall in R1.
    destruct (session_command_no_vault cmd (R1 cmd Hin) Hv).
  - exists new1. simpl. split; [exact E1|].
    intros [Hex | Hfiles]; [|contradiction].
    apply Exists_exists in Hex as (cmd & Hin & Hv).
    rewrite Forall_forall in R1.
    destruct (session_command_no_vault cmd (R1 cmd Hin) Hv).
Qed.

Lemma main_acts_only_after_yes_witness :
  let P := platform demo_vault no_env in
  let args := mkArgs Pull (Some "kv-test") "out.json" None None false
                     (Some "sub-1") in
  let s := mkState [] [] empty ["y"; "unread"] in
  Exists is_vault_command (calls (snd (@main P args s)))
  /\ exists line rest, stdin s = line :: rest /\ accepted line = true.
Proof.
  intros P args s.
  assert (Exists is_vault_command (calls (snd (@main P args s)))) as Hex.
  { vm_compute. apply Exists_cons_tl, Exists_cons_tl, Exists_cons_hd.
    reflexivity. }
  split; [exact Hex|].
  destruct (@main_acts_only_after_yes P args s) as (new & E & Hyes).
  apply Hyes. left. rewrite E in Hex. exact Hex.
Defined.

(** X11: without a yes, [main] stops before the vault. Once the
    configuration is complete and the session steps have returned, a
    missing input line ends the run with [EOFError] and a line that is not
    accepted ends it with exit code 0 after printing the cancellation
    line; in both cases the prompt has been shown and nothing else has been
    run or written. *)
Theorem main_stops_without_yes `{Platform} (args : Args) (s s1 s2 : State) :
  let subscription_id :=
    py_or (arg_subscription args) (getenv "AZURE_SUBSCRIPTION_ID") in
  let vaultname :=
    py_or (arg_vaultname args) (getenv "AZURE_KEYVAULT_NAME") in
  let prompted :=
    console s2
    ++ [confirm_prompt (action_of (arg_direction args))
                       (default "" vaultname)] in
  opt_truthy subscription_id = true ->
  opt_truthy vaultname = true ->
  azure_login_check s = (Return tt, s1) ->
  switch_subscription subscription_id s1 = (Return tt, s2) ->
  match stdin s2 with
  | [] =>
      main args s
      = (Raise EOFError, mkState (calls s2) prompted (files s2) [])
  | line :: rest =>
      accepted line = false ->
      main args s
      = (Exit 0,
         mkState (calls s2) (prompted ++ [Echo "Operation cancelled."])
                 (files s2) rest)
  end.
Proof.
  intros subscription_id vaultname prompted Hsub Hvault Hlogin Hswitch.
  unfold main, bind. rewrite (main_setup_steps args s Hsub Hvault).
  rewrite Hlogin. fold subscription_id. rewrite Hswitch.
  destruct (stdin s2) as [|line rest]; [reflexivity|].
  intros Hno. cbv zeta. rewrite Hno. reflexivity.
Qed.

Lemma main_stops_without_yes_witness :
  @main (platform demo_vault no_env)
        (mkArgs Push (Some "kv-test") "in.json" None None false (Some "sub-1"))
        (mkState [] [] empty ["yes"])
  = (Exit 0,
     mkState [["az"; "account"; "show"];
              ["az"; "account"; "set"; "--subscription"; "sub-1"]]
       [Echo "Switching to subscription: sub-1";
        Echo "Subscription switched successfully.";
        Prompt "Are you sure you want to push secrets in the vault 'kv-test'? [y/n]: ";
        Echo "Operation cancelled."]
       empty []).
Proof.
  refine (@main_stops_without_yes (platform demo_vault no_env)
            (mkArgs Push (Some "kv-test") "in.json" None None false
                    (Some "sub-1"))
            (mkState [] [] empty ["yes"])
            (mkState [["az"; "account"; "show"]] [] empty ["yes"])
            (mkState [["az"; "account"; "show"];
                      ["az"; "account"; "set"; "--subscription"; "sub-1"]]
               [Echo "Switching to subscription: sub-1";
                Echo "Subscription switched successfully."]
               empty ["yes"])
            _ _ _ _ _); reflexivity.
Defined.

(** X12: when the account query fails and the login fails too, [main]
    exits with code 1 after exactly these two commands: the login is tried
    once, the subscription is not switched, the user is not prompted and
    no input is read. *)
Theorem main_exits_when_login_fails `{Platform} (args : Args) (s : State) :
  let h1 := calls s ++ [["az"; "account"; "show"]] in
  let h2 := h1 ++ [["az"; "login"]] in
  opt_truthy (py_or (arg_subscription args) (getenv "AZURE_SUBSCRIPTION_ID"))
  = true ->
  opt_truthy (py_or (arg_vaultname args) (getenv "AZURE_KEYVAULT_NAME"))
  = true ->
  returncode (az h1) <> 0 ->
  returncode (az h2) <> 0 ->
  main args s
  = (Exit 1,
     mkState h2
       (console s
        ++ [Echo "You are not logged in to Azure. Initiating 'az login'...";
            Echo "Error: Azure login failed. Please try logging in manually."])
       (files s) (stdin s)).
Proof.
  intros h1 h2 Hsub Hvault Hshow Hlogin.
  unfold main, bind. rewrite (main_setup_steps args s Hsub Hvault).
  apply Z.eqb_neq in Hshow. apply Z.eqb_neq in Hlogin.
  unfold azure_login_check, bind, click_echo.
  rewrite subprocess_run_strings. fold h1. rewrite Hshow.
  rewrite subprocess_run_strings. cbn [calls console files stdin].
  fold h2. rewrite Hlogin.
  cbn [calls console files stdin]. unfold exit.
  rewrite <- !app_assoc. reflexivity.
Qed.

Lemma main_exits_when_login_fails_witness :
  @main (platform (fun _ => mkProc 1 "" "ERROR: Please run 'az login'") no_env)
        (mkArgs Pull (Some "kv-test") "out.json" None None false (Some "sub-1"))
        (mkState [] [] empty ["y"])
  = (Exit 1,
     mkState [["az"; "account"; "show"]; ["az"; "login"]]
       [Echo "You are not logged in to Azure. Initiating 'az login'...";
        Echo "Error: Azure login failed. Please try logging in manually."]
       empty ["y"]).
Proof.
  apply (@main_exits_when_login_fails
           (platform (fun _ => mkProc 1 "" "ERROR: Please run 'az login'")
                     no_env)
           (mkArgs Pull (Some "kv-test") "out.json" None None false
                   (Some "sub-1"))
           (mkState [] [] empty ["y"])); try reflexivity; cbn; discriminate.
Defined.

(** X13: when the session is valid but the subscription switch returns a
    non-zero status, [main] prints the error line and the tool's diagnostic
    and exits with code 1 before prompting: the switch is the last command
    and no input is read. *)
Theorem main_exits_when_switch_fails `{Platform} (args : Args)
    (subscription_id : string) (s : State) :
  let h1 := calls s ++ [["az"; "account"; "show"]] in
  let h2 :=
    h1 ++ [["az"; "account"; "set"; "--subscription"; subscription_id]] in
  py_or (arg_subscription args) (getenv "AZURE_SUBSCRIPTION_ID")
  = Some subscription_id ->
  str_truthy subscription_id = true ->
  opt_truthy (py_or (arg_vaultname args) (getenv "AZURE_KEYVAULT_NAME"))
  = true ->
  returncode (az h1) = 0 ->
  returncode (az h2) <> 0 ->
  main args s
  = (Exit 1,
     mkState h2
       (console s
        ++ [Echo ("Switching to subscription: " +:+ subscription_id);
            Echo ("Error switching to subscription " +:+ subscription_id
                  +:+ ".");
            Echo (stderr (az h2))])
       (files s) (stdin s)).
Proof.
  intros h1 h2 Hid Htruthy Hvault Hshow Hset.
  assert (opt_truthy (py_or (arg_subscription args)
                            (getenv "AZURE_SUBSCRIPTION_ID")) = true) as Hsub
    by (rewrite Hid; exact Htruthy).
  unfold main, bind. rewrite (main_setup_steps args s Hsub Hvault).
  unfold azure_login_check, bind.
  rewrite subprocess_run_strings. fold h1. rewrite Hshow. cbn [Z.eqb ret].
  rewrite Hid. unfold switch_subscription. rewrite Htruthy.
  unfold bind, click_echo. rewrite subprocess_run_strings.
  cbn [calls console files stdin]. fold h2.
  apply Z.eqb_neq in Hset. rewrite Hset.
  cbn. rewrite <- !app_assoc. reflexivity.
Qed.

Lemma main_exits_when_switch_fails_witness :
  let tool := fun h : list (list string) =>
                if String.eqb (nth 2 (List.last h []) "") "set"
                then mkProc 1 "" "ERROR: subscription not found"
                else mkProc 0 "{}" "" in
  @main (platform tool no_env)
        (mkArgs Pull (Some "kv-test") "out.json" None None false (Some "sub-9"))
        (mkState [] [] empty ["y"])
  = (Exit 1,
     mkState [["az"; "account"; "show"];
              ["az"; "account"; "set"; "--subscription"; "sub-9"]]
       [Echo "Switching to subscription: sub-9";
        Echo "Error switching to subscription sub-9.";
        Echo "ERROR: subscription not found"]
       empty ["y"]).
Proof.
  intros tool.
  apply (@main_exits_when_switch_fails (platform tool no_env)
           (mkArgs Pull (Some "kv-test") "out.json" None None false
                   (Some "sub-9"))
           "sub-9" (mkState [] [] empty ["y"])); try reflexivity.
  cbn. discriminate.
Defined.

(** X14: the vault name [main] works on. When [main] reaches the dispatch
    of line 155, the vault name it passes on is not empty; it is the
    [--vaultname] flag when that is given and not empty, and the value of
    [AZURE_KEYVAULT_NAME] otherwise; a subscription ID was available; and
    the last thing shown is the prompt naming that vault. *)
Theorem main_uses_flag_before_environment `{Platform}
    (args : Args) (vaultname : string) (s s' : State) :
  main_setup args s = (Return vaultname, s') ->
  vaultname <> ""
  /\ (forall flag, arg_vaultname args = Some flag -> flag <> "" ->
                   vaultname = flag)
  /\ (opt_truthy (arg_vaultname args) = false ->
      getenv "AZURE_KEYVAULT_NAME" = Some vaultname)
  /\ opt_truthy (py_or (arg_subscription args)
                       (getenv "AZURE_SUBSCRIPTION_ID")) = true
  /\ List.last (console s') (Echo "")
     = confirm_prompt (action_of (arg_direction args)) vaultname.
Proof.
  intros Hsetup.
  destruct (main_setup_returns args s s' vaultname Hsetup)
    as (_ & Hname & Htruthy & Hsub).
  assert (opt_truthy (py_or (arg_vaultname args)
                            (getenv "AZURE_KEYVAULT_NAME")) = true) as Hvault
    by (rewrite <- Hname; exact Htruthy).
  split; [|split; [|split; [|split]]].
  - intros ->. discriminate Htruthy.
  - intros flag Hflag Hne. unfold py_or in Hname. rewrite Hflag in Hname.
    destruct flag; [contradiction|]. simpl in Hname. congruence.
  - intros Hno. unfold py_or in Hname. rewrite Hno in Hname. congruence.
  - exact Hsub.
  - rewrite (main_setup_steps args s Hsub Hvault) in Hsetup.
    destruct (azure_login_check s) as [[[]|c|e] s1]; try discriminate.
    destruct (switch_subscription _ s1) as [[[]|c|e] s2]; try discriminate.
    destruct (stdin s2) as [|line rest]; [discriminate|].
    destruct (accepted line); [|discriminate].
    injection Hsetup as Hv <-. cbn [console]. rewrite last_last.
    rewrite <- Hname. reflexivity.
Qed.

Lemma main_uses_flag_before_environment_witness :
  let env := fun name : string =>
               if String.eqb name "AZURE_KEYVAULT_NAME" then Some "kv-env"
               else if String.eqb name "AZURE_SUBSCRIPTION_ID"
                    then Some "sub-env" else None in
  let P := platform demo_vault env in
  let args := mkArgs Pull (Some "") "out.json" None None false None in
  let s' := mkState [["az"; "account"; "show"];
                     ["az"; "account"; "set"; "--subscription"; "sub-env"]]
              [Echo "Switching to subscription: sub-env";
               Echo "Subscription switched successfully.";
               Prompt "Are you sure you want to pull secrets in the vault 'kv-env'? [y/n]: "]
              empty [] in
  @main_setup P args (mkState [] [] empty ["Y"]) = (Return "kv-env", s')
  /\ @getenv P "AZURE_KEYVAULT_NAME" = Some "kv-env"
  /\ List.last (console s') (Echo "") = confirm_prompt "pull" "kv-env".
Proof.
  intros env P args s'.
  assert (@main_setup P args (mkState [] [] empty ["Y"])
          = (Return "kv-env", s')) as E by reflexivity.
  destruct (@main_uses_flag_before_environment P args "kv-env" _ s' E)
    as (_ & _ & Henv & _ & Hlast).
  split; [exact E|]. split; [apply Henv; reflexivity | exact Hlast].
Defined.

(** X15: on a push, the options that only a pull reads do not matter: two
    argument sets with direction push that agree on [--subscription],
    [--vaultname] and [--filename] give the same run, whatever their
    [--tags], [--name] and [--verbose] are. In particular a [--tags] token
    that would raise [ValueError] on a pull is harmless on a push. *)
Theorem main_push_ignores_pull_options `{Platform} (args args' : Args)
    (s : State) :
  arg_direction args = Push ->
  arg_direction args' = Push ->
  arg_subscription args' = arg_subscription args ->
  arg_vaultname args' = arg_vaultname args ->
  arg_filename args' = arg_filename args ->
  main args' s = main args s.
Proof.
  intros Hd Hd' Hsub Hvault Hfile.
  unfold main, main_setup, main_dispatch.
  rewrite Hd, Hd', Hsub, Hvault, Hfile. reflexivity.
Qed.

Lemma main_push_ignores_pull_options_witness :
  let P := platform demo_vault no_env in
  let s := mkState [] [] {["in.json" := "[]"]} ["y"] in
  @main P (mkArgs Push (Some "kv-test") "in.json" (Some ["broken"])
                  (Some "db-*") true (Some "sub-1")) s
  = @main P (mkArgs Push (Some "kv-test") "in.json" None None false
                    (Some "sub-1")) s.
Proof.
  intros P s.
  apply (@main_push_ignores_pull_options P); reflexivity.
Defined.

(** ** Pull: what is shown, and answers that cannot be read *)

Section PullShown.
Context `{Platform}.






Lemma pull_loop_app (pattern : option string) (verbose : bool)
    (a b secrets : list json) (s : State) :
  pull_loop pattern verbose (a ++ b) secrets s
  = match pull_loop pattern verbose a secrets s with
    | (Return secrets', s1) => pull_loop pattern verbose b secrets' s1
    | (Exit c, s1) => (Exit c, s1)
    | (Raise e, s1) => (Raise e, s1)
    end.
Proof.
  revert secrets s. induction a as [|i a IH]; intros secrets s; simpl.
  - reflexivity.
  - unfold bind. destruct (pull_secret pattern verbose secrets i s)
      as [[secrets'|c|e] s1]; [apply IH | reflexivity | reflexivity].
Qed.

End PullShown.





(** X18: an answer that cannot be read is not skipped like a failed fetch.
    When a fetch returns status 0 with text that is not JSON, the pull
    ends with an uncaught [JSONDecodeError]: the identifiers after it are
    not fetched and no file is written, although the earlier fetches
    succeeded. *)
Theorem pull_aborts_on_unreadable_answer `{Platform}
    (vaultname : string) (tags : list (string * string)) (filename : string)
    (pattern : option string) (verbose : bool)
    (before_ids after_ids : list string) (bad : string) (s : State) :
  let h0 := calls s ++ [list_command vaultname tags] in
  let h1 := h0 ++ map show_command before_ids ++ [show_command bad] in
  returncode (az h0) = 0 ->
  json_loads (stdout (az h0))
  = Some (JArr (map JStr (before_ids ++ bad :: after_ids))) ->
  Forall fetch_in_contract (show_results h0 before_ids) ->
  returncode (az h1) = 0 ->
  json_loads (stdout (az h1)) = None ->
  let run := pull_secrets vaultname tags filename pattern verbose s in
  fst run = Raise JSONDecodeError
  /\ calls (snd run) = h1
  /\ files (snd run) = files s.
Proof.
  intros h0 h1 Hrc Hlist Hbefore Hrc1 Hbad run.
  assert (run
          = (Raise JSONDecodeError,
             mkState h1
               ((console s
                 ++ [Echo ("Pulling secrets from vault: " +:+ vaultname)])
                ++ progress_lines pattern verbose before_ids
                     (show_results h0 before_ids))
               (files s) (stdin s))) as ->; [|auto].
  unfold run, pull_secrets, bind, click_echo.
  rewrite subprocess_run_strings. cbn [calls console files stdin].
  fold h0. rewrite Hrc, Hlist. cbn [Z.eqb negb ret py_iter].
  rewrite map_app, pull_loop_app.
  rewrite pull_loop_runs by exact Hbefore. cbn [calls console files stdin].
  simpl map. simpl pull_loop. unfold bind at 1. unfold pull_secret at 1.
  unfold bind at 1.
  change [JStr "az"; JStr "keyvault"; JStr "secret"; JStr "show";
          JStr "--id"; JStr bad; JStr "--query";
          JStr "{name: name, value: value, tags: tags}"; JStr "-o";
          JStr "json"] with (map JStr (show_command bad)).
  rewrite subprocess_run_strings. cbn [calls console files stdin].
  replace ((h0 ++ map show_command before_ids) ++ [show_command bad])
    with h1 by (unfold h1; rewrite app_assoc; reflexivity).
  rewrite Hrc1, Hbad. reflexivity.
Qed.

Lemma pull_aborts_on_unreadable_answer_witness :
  let tool :=
    vault_tool (mkProc 0 (json_text "['id/db-pass', 'id/odd', 'id/api-key']") "")
      [("id/db-pass",
        mkProc 0 (json_text "{'name': 'db-pass', 'value': 's3cret', 'tags': {}}") "");
       ("id/odd", mkProc 0 "WARNING: this is not JSON" "")] [] in
  let run := @pull_secrets (platform tool no_env) "kv-test" [] "out.json"
               None false (mkState [] [] {["out.json" := "old"]} []) in
  fst run = Raise JSONDecodeError
  /\ files (snd run) !! "out.json" = Some "old".
Proof.
  intros tool run.
  destruct (@pull_aborts_on_unreadable_answer (platform tool no_env)
              "kv-test" [] "out.json" None false
              ["id/db-pass"] ["id/api-key"] "id/odd"
              (mkState [] [] {["out.json" := "old"]} []))
    as (Hout & _ & Hfiles).
  - reflexivity.
  - vm_compute. reflexivity.
  - apply Forall_cons. split; [|apply Forall_nil_2]. intros _.
    exists (JObj [("name", JStr "db-pass"); ("value", JStr "s3cret");
                  ("tags", JObj [])]), "db-pass".
    split; vm_compute; reflexivity.
  - reflexivity.
  - vm_compute. reflexivity.
  - split; [exact Hout|]. fold run in Hfiles. rewrite Hfiles. reflexivity.
Defined.

(** ** Pull, then push: where the round trip holds *)


Lemma push_secret_runs_only_for_secrets_witness :
  let P := platform (vault_tool (mkProc 0 "[]" "") [] []) no_env in
  is_Some (as_secret (JObj [("name", JStr "db-pass"); ("value", JStr "s3cret")])).
Proof.
  intros P.
  apply (@push_secret_runs_only_for_secrets P "kv-test" _
           (mkState [] [] empty [])).
  vm_compute. discriminate.
Defined.

(** ** The tag filter as a mapping *)

Lemma tag_fold_lookup (k : string) (tokens : list string)
    (d : list (string * string)) :
  dict_lookup k
    (fold_left (fun d t => dict_set (before "=" t) (after "=" t) d) tokens d)
  = match last_value k tokens with
    | Some v => Some v
    | None => dict_lookup k d
    end.
Proof.
  revert d. induction tokens as [|t tokens IH]; intros d; [reflexivity|].
  simpl. rewrite IH. destruct (last_value k tokens); [reflexivity|].
  rewrite RefFacts.dict_lookup_set.
  destruct (String.eqb k (before "=" t)); reflexivity.
Qed.

Lemma tag_fold_distinct (tokens : list string) (d : list (string * string)) :
  keys_distinct d = true ->
  keys_distinct
    (fold_left (fun d t => dict_set (before "=" t) (after "=" t) d) tokens d)
  = true.
Proof.
  revert d. induction tokens as [|t tokens IH]; intros d Hd; [exact Hd|].
  simpl. apply IH, RefFacts.keys_distinct_set, Hd.
Qed.

(** X21: the tag filter built from the [--tags] tokens is a mapping. When
    every token has exactly one [=], the filter has pairwise different
    keys, and looking a key up gives the value of the last token with that
    key (none when no token has it): a repeated key overrides, it does not
    add a second condition to the listing query. *)
Theorem tag_filter_keeps_last_value (tokens : list string) :
  tokens <> [] ->
  Forall (fun t => count_char "=" t = 1%nat) tokens ->
  exists d,
    tag_dict_of (Some tokens) = Return d
    /\ keys_distinct d = true
    /\ forall k, dict_lookup k d = last_value k tokens.
Proof.
  intros Hne Hall. exists (tag_mapping tokens). split; [|split].
  - destruct tokens as [|t0 tokens]; [now destruct Hne|].
    exact (dict_update_good (t0 :: tokens) [] Hall).
  - apply tag_fold_distinct. reflexivity.
  - intros k. unfold tag_mapping. rewrite tag_fold_lookup.
    destruct (last_value k tokens); reflexivity.
Qed.

Lemma tag_filter_keeps_last_value_witness :
  exists d,
    tag_dict_of (Some ["env=dev"; "team=core"; "env=prod"]) = Return d
    /\ dict_lookup "env" d = Some "prod"
    /\ dict_lookup "owner" d = None
    /\ list_command "kv-test" d
       = ["az"; "keyvault"; "secret"; "list"; "--vault-name"; "kv-test";
          "--query"; "[?tags.env == 'prod' && tags.team == 'core'].id";
          "-o"; "json"].
Proof.
  destruct (tag_filter_keeps_last_value ["env=dev"; "team=core"; "env=prod"])
    as (d & Hd & _ & Hlookup).
  - discriminate.
  - repeat constructor.
  - exists d. split; [exact Hd|]. rewrite !Hlookup.
    split; [reflexivity|]. split; [reflexivity|].
    vm_compute in Hd. injection Hd as <-. reflexivity.
Defined.

(** ** Before the dispatch *)

(** X22: everything [main] does before the dispatch of line 155
    (configuration, login check, subscription switch, confirmation) leaves
    the files alone, runs only the account query, the login and the
    subscription switch, and reads at most one line of input, however it
    ends. *)
Theorem main_setup_runs_session_only `{Platform} (args : Args) (s : State) :
  let s' := snd (main_setup args s) in
  files s' = files s
  /\ (exists new, calls s' = calls s ++ new
                  /\ Forall is_session_command new)
  /\ (stdin s' = stdin s \/ exists line, stdin s = line :: stdin s').
Proof. exact (main_setup_frame args s). Qed.
